(** * Gateway service: a shallow embedding of [app/database.py],
    [app/users.py] and [app/main.py], and the properties of its handlers.

    The handlers are Python coroutines that talk to three collaborators:
    the Supabase backend (through the client handle), the downstream
    [service] container (through [httpx]) and the process itself
    (environment, clock, console).  They are embedded as computations in a
    state-and-exception monad over a [world] that holds those collaborators
    and a trace of the calls made to them. *)

From stdpp Require Import gmap strings list fin_maps pretty.
From Stdlib Require Import ZArith Lia Ascii.

Open Scope string_scope.
Open Scope Z_scope.

#[local] Set Warnings "-register-all".

(** ** Python values

    The JSON-shaped values the handlers receive and return.  A [dict] is a
    finite map with string keys; a [str] is kept as its UTF-8 bytes (see
    [py_len] below); a float is kept as its IEEE-754 binary64 bit
    pattern. *)

Inductive pyval : Type :=
| PNone
| PBool (b : bool)
| PInt (z : Z)
| PFloat (bits : Z)
| PStr (s : string)
| PList (l : list pyval)
| PDict (d : gmap string pyval).

(** Python's truth value testing ([if v:]). *)
Definition truthy (v : pyval) : bool :=
  match v with
  | PNone => false
  | PBool b => b
  | PInt z => negb (z =? 0)
  | PFloat bits => negb (Z.land bits (2 ^ 63 - 1) =? 0)
  | PStr s => negb (String.eqb s "")
  | PList l => match l with [] => false | _ :: _ => true end
  | PDict d => negb (bool_decide (d = ∅))
  end.

(** ** [str]

    A [str] is a sequence of characters; it is kept as the bytes of its
    UTF-8 encoding, and a lone surrogate (which a JSON escape such as
    ["\ud800"] puts into a [str]) as the three bytes that [surrogatepass]
    gives it. *)

(** A byte that continues a character: [10xxxxxx]. *)
Definition is_continuation (a : ascii) : bool :=
  (128 <=? nat_of_ascii a)%nat && (nat_of_ascii a <? 192)%nat.

(** [len(s)]: the characters of [s], one for each byte that starts one. *)
Fixpoint py_len (s : string) : nat :=
  match s with
  | EmptyString => 0%nat
  | String a s' => ((if is_continuation a then 0 else 1) + py_len s')%nat
  end.

(** Does [s] hold a surrogate (U+D800 to U+DFFF: the byte [ED] followed by
    a byte from [A0] up)?  Such a [str] has no UTF-8 encoding. *)
Fixpoint has_surrogate (s : string) : bool :=
  match s with
  | EmptyString => false
  | String a s' =>
      match s' with
      | String b _ =>
          (nat_of_ascii a =? 237)%nat && (160 <=? nat_of_ascii b)%nat
      | EmptyString => false
      end
      || has_surrogate s'
  end.

(** Text in ASCII: every byte is a character of its own. *)
Fixpoint is_ascii (s : string) : bool :=
  match s with
  | EmptyString => true
  | String a s' => (nat_of_ascii a <? 128)%nat && is_ascii s'
  end.

(** The size of a value: one for the value, and the sizes of what it
    holds. *)
Fixpoint pyval_size (v : pyval) : nat :=
  match v with
  | PList l => S (foldr (fun x rest => pyval_size x + rest)%nat 0%nat l)
  | PDict d => S (map_fold (fun _ x rest => pyval_size x + rest)%nat 0%nat d)
  | _ => 1%nat
  end.

(** ** Exceptions and outcomes *)

Inductive exn : Type :=
| HTTPException (status_code : Z) (detail : pyval)
| RuntimeError (msg : string)
| ImportError
| AttributeError
| TypeError
| KeyError (key : string)
| HTTPStatusError (status_code : Z)
| ConnectError
| JSONDecodeError
| SupabaseException
| UnicodeEncodeError
| RequestValidationError (errors : list (list string * pyval)).

(** [http.HTTPStatus(code).phrase], for the status codes the gateway
    answers with. *)
Definition status_phrase (code : Z) : string :=
  if code =? 400 then "Bad Request"
  else if code =? 404 then "Not Found"
  else if code =? 405 then "Method Not Allowed"
  else if code =? 422 then "Unprocessable Entity"
  else "Internal Server Error".

(** [HTTPException(status_code=code, detail=detail)]: a [detail] of [None]
    is replaced by the phrase of the status code. *)
Definition http_exception (code : Z) (detail : pyval) : exn :=
  HTTPException code
    match detail with
    | PNone => PStr (status_phrase code)
    | _ => detail
    end.

Inductive outcome (A : Type) : Type :=
| Return (a : A)
| Raise (e : exn).
Arguments Return {A} a.
Arguments Raise {A} e.

(** ** [datetime]

    A naive [datetime] is its seven fields; Python orders two of them as
    the tuples of their fields. *)

Record datetime : Type := {
  year : nat; month : nat; day : nat;
  hour : nat; minute : nat; second : nat; microsecond : nat
}.

Definition timetuple (t : datetime) : list nat :=
  [year t; month t; day t; hour t; minute t; second t; microsecond t].

Fixpoint tuple_le (a b : list nat) : bool :=
  match a, b with
  | [], _ => true
  | _ :: _, [] => false
  | x :: a', y :: b' =>
      if (x <? y)%nat then true
      else if (y <? x)%nat then false
      else tuple_le a' b'
  end.

(** [a <= b] on [datetime] *)
Definition datetime_le (a b : datetime) : bool :=
  tuple_le (timetuple a) (timetuple b).

(** ['%0{width}d' % n] *)
Definition zero_padded (width n : nat) : string :=
  let digits := pretty n in
  String.concat "" (replicate (width - String.length digits) "0") +:+ digits.

(** [t.isoformat()]: [YYYY-MM-DDTHH:MM:SS], then [.ffffff] unless the
    microseconds are zero. *)
Definition isoformat (t : datetime) : string :=
  zero_padded 4 (year t) +:+ "-" +:+ zero_padded 2 (month t) +:+ "-" +:+
  zero_padded 2 (day t) +:+ "T" +:+ zero_padded 2 (hour t) +:+ ":" +:+
  zero_padded 2 (minute t) +:+ ":" +:+ zero_padded 2 (second t) +:+
  match microsecond t with
  | O => ""
  | S _ => "." +:+ zero_padded 6 (microsecond t)
  end.

(** ** Collaborators *)

(** The object returned by [create_client(url, key)].  [hid] is the object's
    identity: two handles are the same object iff they have the same [hid]. *)
Record handle : Type := Handle { hid : nat; h_url : string; h_key : string }.

(** The fluent query builder: [supabase.table(t)] followed by [insert(row)]
    or [select(cols).eq(c, v).single()].  Building a query performs no call;
    [execute()] does. *)
Record request_builder : Type := { rb_table : string }.

Inductive query : Type :=
| QInsert (tbl : string) (row : gmap string pyval)
| QSelect (tbl : string) (columns : string) (filters : list (string * string))
          (is_single : bool).

Definition insert (rb : request_builder) (row : gmap string pyval) : query :=
  QInsert (rb_table rb) row.

Definition select (rb : request_builder) (columns : string) : query :=
  QSelect (rb_table rb) columns [] false.

Definition eq_ (q : query) (column value : string) : query :=
  match q with
  | QSelect t c fs s => QSelect t c (fs ++ [(column, value)]) s
  | QInsert _ _ => q
  end.

Definition single (q : query) : query :=
  match q with
  | QSelect t c fs _ => QSelect t c fs true
  | QInsert _ _ => q
  end.

(** What [execute()] hands back: an object with [data] and [error]
    attributes; [error] is [None] or an object with a [message]. *)
Record api_error : Type := { message : pyval }.
Record query_result : Type := { data : pyval; error : option api_error }.

(** The backend, as the handlers see it: sign-up returns a dictionary with
    either ['error'] or ['user'], [execute()] returns a [query_result].  Both
    report failures in the value they return.  [B] is the backend's own
    state, on which the gateway has no other hold. *)
Class Backend (B : Type) : Type := {
  backend_sign_up : gmap string pyval → B → pyval * B;
  backend_execute : query → B → query_result * B
}.

(** The downstream service behind [httpx]: a GET either gets a response
    (status code, and the body decoded as JSON when it is JSON) or fails in
    transport. *)
Record response : Type := { status_code : Z; json_body : option pyval }.

Inductive transport : Type :=
| Responded (r : response)
| Unreachable.

Class Service (D : Type) : Type := {
  service_get : string → D → transport * D
}.

(** ** Trace of the calls made to the collaborators *)

Inductive event : Type :=
| EvCreateClient (h : handle)
| EvSignUp (credentials : gmap string pyval)
| EvExecute (q : query)
| EvClientOpen (client : nat)
| EvGet (client : nat) (url : string)
| EvClientClose (client : nat)
| EvPrint (line : string).

(** ** The world *)

Record world (B D : Type) : Type := World {
  environ : gmap string string;       (* os.environ *)
  supabase_installed : bool;          (* does [from supabase import ...] work *)
  client_accepts : string → string → bool;
                                      (* the url and key [create_client] takes *)
  stdout_accepts : string → bool;     (* the lines [sys.stdout] can encode *)
  lru : option handle;                (* cache of [get_supabase_client] *)
  next_id : nat;                      (* next fresh object identity *)
  backend : B;
  service : D;
  wall : nat → datetime;              (* the wall clock, instant by instant *)
  tick : nat;                         (* the current instant *)
  trace : list event
}.
Arguments World {B D}.
Arguments environ {B D}.
Arguments supabase_installed {B D}.
Arguments client_accepts {B D}.
Arguments stdout_accepts {B D}.
Arguments lru {B D}.
Arguments next_id {B D}.
Arguments backend {B D}.
Arguments service {B D}.
Arguments wall {B D}.
Arguments tick {B D}.
Arguments trace {B D}.

(** ** The monad: state threaded through, exceptions keep the state *)

Definition M (B D A : Type) : Type := world B D → outcome A * world B D.

Definition ret {B D A} (a : A) : M B D A := fun w => (Return a, w).

Definition raise {B D A} (e : exn) : M B D A := fun w => (Raise e, w).

Definition bind {B D A C} (m : M B D A) (k : A → M B D C) : M B D C :=
  fun w =>
    match m w with
    | (Return a, w') => k a w'
    | (Raise e, w') => (Raise e, w')
    end.

(** [try: m except Exception as e: h e] *)
Definition try_except {B D A} (m : M B D A) (h : exn → M B D A) : M B D A :=
  fun w =>
    match m w with
    | (Return a, w') => (Return a, w')
    | (Raise e, w') => h e w'
    end.

(** [try: m finally: f] *)
Definition try_finally {B D A} (m : M B D A) (f : M B D unit) : M B D A :=
  fun w =>
    match m w with
    | (r, w') =>
        match f w' with
        | (Return _, w'') => (r, w'')
        | (Raise e, w'') => (Raise e, w'')
        end
    end.

Declare Scope py_scope.
Delimit Scope py_scope with py.
Notation "'let*' x ':=' m 'in' k" := (bind m (fun x => k))
  (at level 10, x name, m at level 99, k at level 200) : py_scope.
Notation "m ';;' k" := (bind m (fun _ => k))
  (at level 100, k at level 200, right associativity) : py_scope.
Open Scope py_scope.

(** ** Primitive operations on values *)

(** [v.get(key)]: only a [dict] has the method. *)
Definition py_get {B D} (v : pyval) (key : string) : M B D pyval :=
  match v with
  | PDict d => ret (default PNone (d !! key))
  | _ => raise AttributeError
  end.

(** [v.get(key, dflt)] *)
Definition py_get_default {B D} (v : pyval) (key : string) (dflt : pyval)
  : M B D pyval :=
  match v with
  | PDict d => ret (default dflt (d !! key))
  | _ => raise AttributeError
  end.

(** [v[key]] with a string key: [KeyError] on a [dict] without the key,
    [TypeError] on anything that is not a [dict]. *)
Definition py_getitem {B D} (v : pyval) (key : string) : M B D pyval :=
  match v with
  | PDict d =>
      match d !! key with
      | Some x => ret x
      | None => raise (KeyError key)
      end
  | _ => raise TypeError
  end.

(** [not s] for an [Optional[str]]. *)
Definition not_str (s : option string) : bool :=
  match s with
  | None => true
  | Some x => String.eqb x ""
  end.

Section Gateway.
Context {B D : Type} `{!Backend B} `{!Service D}.

Abbreviation world := (world B D).
Abbreviation M := (M B D).

(** *** Access to the world *)

Definition set_trace (t : list event) (w : world) : world :=
  World (environ w) (supabase_installed w) (client_accepts w)
        (stdout_accepts w) (lru w) (next_id w)
        (backend w) (service w) (wall w) (tick w) t.

Definition set_backend (b : B) (w : world) : world :=
  World (environ w) (supabase_installed w) (client_accepts w)
        (stdout_accepts w) (lru w) (next_id w)
        b (service w) (wall w) (tick w) (trace w).

Definition set_service (d : D) (w : world) : world :=
  World (environ w) (supabase_installed w) (client_accepts w)
        (stdout_accepts w) (lru w) (next_id w)
        (backend w) d (wall w) (tick w) (trace w).

Definition set_lru (c : option handle) (w : world) : world :=
  World (environ w) (supabase_installed w) (client_accepts w)
        (stdout_accepts w) c (next_id w)
        (backend w) (service w) (wall w) (tick w) (trace w).

Definition set_next_id (n : nat) (w : world) : world :=
  World (environ w) (supabase_installed w) (client_accepts w)
        (stdout_accepts w) (lru w) n
        (backend w) (service w) (wall w) (tick w) (trace w).

Definition set_tick (n : nat) (w : world) : world :=
  World (environ w) (supabase_installed w) (client_accepts w)
        (stdout_accepts w) (lru w) (next_id w)
        (backend w) (service w) (wall w) n (trace w).

Definition emit (e : event) : M unit :=
  fun w => (Return tt, set_trace (trace w ++ [e]) w).

(** A new Python object: its identity has not been used before. *)
Definition new_object : M nat :=
  fun w => (Return (next_id w), set_next_id (S (next_id w)) w).

(** [os.getenv(name)] *)
Definition getenv (name : string) : M (option string) :=
  fun w => (Return (environ w !! name), w).

(** [print(line)]: the line is encoded for [sys.stdout] as a whole before
    any of it is written. *)
Definition print (line : string) : M unit :=
  fun w => if stdout_accepts w line then emit (EvPrint line) w
           else (Raise UnicodeEncodeError, w).

(** The time it is in [w]. *)
Definition current_time (w : world) : datetime := wall w (tick w).

(** [datetime.now()]: time moves on to the next instant, which is read. *)
Definition datetime_now : M datetime :=
  fun w => (Return (wall w (S (tick w))), set_tick (S (tick w)) w).

(** *** [app/database.py] *)

Definition config_error_message : string :=
  "SUPABASE_URL and SUPABASE_ANON_KEY must be set in the environment.".

Definition dependency_error_message : string :=
  "supabase-py is required for database operations. Please install it via 'pip install supabase-py'.".

(** [from supabase import create_client] *)
Definition import_supabase : M unit :=
  fun w => if supabase_installed w then (Return tt, w)
           else (Raise ImportError, w).

(** [create_client(url, key)]: a new client object, unless the library
    refuses the url or the key (a malformed URL, say). *)
Definition create_client (url key : string) : M handle :=
  fun w =>
    if client_accepts w url key then
      (let* i := new_object in
       let h := Handle i url key in
       emit (EvCreateClient h);;
       ret h) w
    else (Raise SupabaseException, w).

(** The body of [get_supabase_client], without the decorator.  Past the
    test, [url] and [key] are both non-empty strings. *)
Definition get_supabase_client_body : M handle :=
  let* url := getenv "SUPABASE_URL" in
  let* key := getenv "SUPABASE_ANON_KEY" in
  if not_str url || not_str key then
    raise (RuntimeError config_error_message)
  else
    try_except import_supabase
      (fun exc =>
         match exc with
         | ImportError => raise (RuntimeError dependency_error_message)
         | _ => raise exc
         end);;
    create_client (default "" url) (default "" key).

(** [functools.lru_cache()] on a function without arguments, for a call
    that no other call overlaps with: one cache slot, filled when the
    function returns, left alone when it raises.  Calls that overlap are
    followed step by step in [call_step] below. *)
Definition lru_cache (f : M handle) : M handle :=
  fun w =>
    match lru w with
    | Some h => (Return h, w)
    | None =>
        match f w with
        | (Return h, w') => (Return h, set_lru (Some h) w')
        | (Raise e, w') => (Raise e, w')
        end
    end.

Definition get_supabase_client : M handle :=
  lru_cache get_supabase_client_body.

Definition get_supabase : M handle := get_supabase_client.

(** *** The client handle's methods *)

(** [supabase.auth.sign_up(credentials)] *)
Definition sign_up (supabase : handle) (credentials : gmap string pyval)
  : M pyval :=
  emit (EvSignUp credentials);;
  fun w => let '(r, b) := backend_sign_up credentials (backend w) in
           (Return r, set_backend b w).

(** [supabase.table(name)] *)
Definition table (supabase : handle) (name : string) : request_builder :=
  {| rb_table := name |}.

(** [query.execute()] *)
Definition execute (q : query) : M query_result :=
  emit (EvExecute q);;
  fun w => let '(r, b) := backend_execute q (backend w) in
           (Return r, set_backend b w).

(** *** [app/users.py] *)

Record UserCreate : Type := { email : string; password : string }.

Definition unknown_sign_up_error : string :=
  "An unknown error occurred during sign up".

Definition create_user (user : UserCreate) (supabase : handle) : M pyval :=
  let* result :=
    sign_up supabase
      {[ "email" := PStr (email user); "password" := PStr (password user) ]} in
  let* error := py_get result "error" in
  (if truthy error then
     let* detail :=
       py_get_default error "message" (PStr unknown_sign_up_error) in
     raise (http_exception 400 detail)
   else ret tt);;
  let* user_data := py_get result "user" in
  let users := table supabase "users" in
  let* id := py_getitem user_data "id" in
  let* mail := py_getitem user_data "email" in
  execute (insert users {[ "id" := id; "email" := mail ]});;
  let* id' := py_getitem user_data "id" in
  let* mail' := py_getitem user_data "email" in
  ret (PDict {[ "id" := id'; "email" := mail' ]}).

Definition get_user (user_id : string) (supabase : handle) : M pyval :=
  let* result :=
    execute (single (eq_ (select (table supabase "users") "*") "id" user_id)) in
  match error result with
  | Some e => raise (http_exception 404 (message e))
  | None => ret (data result)
  end.

(** *** [httpx] *)

(** [httpx.AsyncClient()] and [__aenter__]: a new client object. *)
Definition AsyncClient : M nat :=
  let* c := new_object in
  emit (EvClientOpen c);;
  ret c.

(** [__aexit__] *)
Definition aclose (client : nat) : M unit := emit (EvClientClose client).

(** [async with httpx.AsyncClient() as client: body] *)
Definition async_with_client {A} (body : nat → M A) : M A :=
  let* client := AsyncClient in
  try_finally (body client) (aclose client).

(** [await client.get(url)] *)
Definition client_get (client : nat) (url : string) : M response :=
  emit (EvGet client url);;
  fun w => let '(t, d) := service_get url (service w) in
           match t with
           | Responded r => (Return r, set_service d w)
           | Unreachable => (Raise ConnectError, set_service d w)
           end.

(** [response.is_success]: a 2xx status code. *)
Definition is_success (r : response) : bool :=
  (200 <=? status_code r) && (status_code r <=? 299).

(** [response.raise_for_status()] *)
Definition raise_for_status (r : response) : M unit :=
  if is_success r then ret tt else raise (HTTPStatusError (status_code r)).

(** [response.json()] *)
Definition response_json (r : response) : M pyval :=
  match json_body r with
  | Some j => ret j
  | None => raise JSONDecodeError
  end.

(** *** [app/main.py] *)

Record TextData : Type := { text : string; timestamp : string; source : string }.

Definition read_root : M pyval :=
  ret (PDict {[ "message" := PStr "Gateway is working" ]}).

Definition rule : string := String.concat "" (replicate 50 "=").

Section ProcessText.
(** [str(e)] for a caught exception. *)
Variable str : exn → string.

Definition process_text (data : TextData) : M pyval :=
  try_except
    (print rule;;
     print "📝 FRONTEND에서 전송된 데이터:";;
     print ("📄 텍스트: " +:+ text data);;
     print ("⏰ 타임스탬프: " +:+ timestamp data);;
     print ("🔗 소스: " +:+ source data);;
     let* now := datetime_now in
     print ("🕐 처리 시간: " +:+ isoformat now);;
     print rule;;
     let* now' := datetime_now in
     ret (PDict {[ "status" := PStr "success";
                   "message" := PStr "데이터가 성공적으로 처리되었습니다";
                   "received_text" := PStr (text data);
                   "processed_at" := PStr (isoformat now') ]}))
    (fun e =>
       print ("❌ 오류 발생: " +:+ str e);;
       raise (http_exception 500
                (PStr ("데이터 처리 중 오류가 발생했습니다: " +:+ str e)))).

End ProcessText.

Definition ping_url : string := "http://service:8000/ping".

Definition proxy_ping : M pyval :=
  async_with_client (fun client =>
    let* response := client_get client ping_url in
    raise_for_status response;;
    response_json response).

(** *** The FastAPI front door

    What the framework does around a handler: it solves the handler's
    [Depends] parameters first, then validates the body against the declared
    model, then calls the handler; an [HTTPException] becomes its status
    code with [{"detail": ...}], a validation failure becomes 422, and any
    other exception becomes 500 with the text [Internal Server Error]. *)

(** What pydantic reports for a body: where ([("body",)] for the body as a
    whole, [("body", field)] for a field) and the input it refused. *)
Definition validation_error : Type := list string * pyval.

Inductive http_body : Type :=
| JSON (v : pyval)
| PlainText (s : string)
| ValidationErrors (fields : list validation_error).

Record http_response : Type := { status : Z; body : http_body }.

(** A request to one of the five paths, the body of a POST already parsed
    as JSON by the framework; a POST whose body is no JSON is answered 422
    before anything below happens, and is not among these.
    [GetUser user_id] is a GET of [/users/] followed by [user_id]. *)
Inductive request : Type :=
| GetRoot
| PostProcessText (payload : pyval)
| GetServicePing
| PostUsers (payload : pyval)
| GetUser (user_id : string).

(** A required [str] field of a JSON object: present, and a JSON string. *)
Definition str_field (payload : pyval) (name : string) : option string :=
  match payload with
  | PDict d =>
      match d !! name with
      | Some (PStr x) => Some x
      | _ => None
      end
  | _ => None
  end.

(** The error on a field of the object [d]: the input reported is the
    object when the field is missing, the value of the field otherwise. *)
Definition field_error (d : gmap string pyval) (name : string)
  : validation_error :=
  (["body"; name], default (PDict d) (d !! name)).

(** [name: str]: any [str] will do, as it is. *)
Definition str_errors (d : gmap string pyval) (name : string)
  : list validation_error :=
  match d !! name with
  | Some (PStr _) => []
  | _ => [field_error d name]
  end.

(** [name: str = Field(..., min_length=n)]: the constraint is tested on the
    characters of the [str], which must be proper Unicode for that. *)
Definition min_length_errors (n : nat) (d : gmap string pyval) (name : string)
  : list validation_error :=
  match d !! name with
  | Some (PStr x) =>
      if negb (has_surrogate x) && (n <=? py_len x)%nat then []
      else [field_error d name]
  | _ => [field_error d name]
  end.

(** The body against [UserCreate]: its errors, or the validated model.
    [email: str = Field(...)], [password: str = Field(..., min_length=8)] *)
Definition validate_UserCreate (payload : pyval)
  : list validation_error + UserCreate :=
  match payload with
  | PDict d =>
      match (str_errors d "email" ++ min_length_errors 8 d "password")%list,
            str_field payload "email", str_field payload "password" with
      | [], Some e, Some p => inr {| email := e; password := p |}
      | errors, _, _ => inl errors
      end
  | _ => inl [(["body"], payload)]
  end.

(** The body against [TextData]: [text: str], [timestamp: str],
    [source: str] *)
Definition validate_TextData (payload : pyval)
  : list validation_error + TextData :=
  match payload with
  | PDict d =>
      match (str_errors d "text" ++ str_errors d "timestamp"
               ++ str_errors d "source")%list,
            str_field payload "text", str_field payload "timestamp",
            str_field payload "source" with
      | [], Some t, Some ts, Some src =>
          inr {| text := t; timestamp := ts; source := src |}
      | errors, _, _, _ => inl errors
      end
  | _ => inl [(["body"], payload)]
  end.

Definition validated {A} (v : list validation_error + A) : M A :=
  match v with
  | inr a => ret a
  | inl fields => raise (RequestValidationError fields)
  end.

(** What becomes of a content on its way out.  Starlette renders it with
    [json.dumps(content, ensure_ascii=False, allow_nan=False)] and encodes
    the text as UTF-8: a content with a lone surrogate in a string or a key
    cannot be encoded, one with a [nan] or an infinity cannot be dumped. *)
Fixpoint encodes (v : pyval) : bool :=
  match v with
  | PStr s => negb (has_surrogate s)
  | PList l => forallb encodes l
  | PDict d =>
      map_fold (fun k x rest => negb (has_surrogate k) && encodes x && rest)
        true d
  | _ => true
  end.

(** A binary64 that is a number and not an infinity: its exponent bits are
    not all ones. *)
Definition is_finite (bits : Z) : bool :=
  negb (Z.land (Z.shiftr bits 52) 2047 =? 2047).

Fixpoint finite (v : pyval) : bool :=
  match v with
  | PFloat bits => is_finite bits
  | PList l => forallb finite l
  | PDict d => map_fold (fun _ x rest => finite x && rest) true d
  | _ => true
  end.

(** The response model serialises a [nan] or an infinity as [null]. *)
Fixpoint nulled (v : pyval) : pyval :=
  match v with
  | PFloat bits => if is_finite bits then v else PNone
  | PList l => PList (map nulled l)
  | PDict d => PDict (nulled <$> d)
  | _ => v
  end.

(** [JSONResponse(content, status_code=code)]: rendering a content that
    cannot be rendered raises, and the caller gets the 500. *)
Definition json_response (code : Z) (content : pyval) : http_response :=
  if encodes content && finite content
  then {| status := code; body := JSON content |}
  else {| status := 500; body := PlainText "Internal Server Error" |}.

#[global] Arguments encodes : simpl never.
#[global] Arguments finite : simpl never.
#[global] Arguments nulled : simpl never.
#[global] Arguments json_response : simpl never.

(** Does the rest of a path hold a slash? *)
Fixpoint has_slash (s : string) : bool :=
  match s with
  | EmptyString => false
  | String a s' => (nat_of_ascii a =? 47)%nat || has_slash s'
  end.

(** [/users/{user_id}] matches one path segment that is not empty. *)
Definition routable (user_id : string) : bool :=
  negb (String.eqb user_id "") && negb (has_slash user_id).

(** A return annotation, as the check it stands for: [dict] (with or
    without parameters) and no annotation. *)
Definition is_dict (v : pyval) : bool :=
  match v with
  | PDict _ => true
  | _ => false
  end.

(** [dict[str, str]] *)
Definition is_str_dict (v : pyval) : bool :=
  match v with
  | PDict d =>
      map_fold (fun _ x rest => match x with PStr _ => rest | _ => false end)
        true d
  | _ => false
  end.

Definition unannotated (v : pyval) : bool := true.

Section FrontDoor.
(** FastAPI from 0.89 on validates what a handler returns against its
    return annotation, and answers 500 when it does not fit; before that
    the annotation is ignored.  The properties below hold either way. *)
Variable validates_return : bool.
Variable str : exn → string.

(** The status and the content an outcome of the handler is answered
    with, before the content is serialised. *)
Definition respond (annotation : pyval → bool) (success_status : Z)
    (m : M pyval) : world → http_response * world :=
  fun w =>
    match m w with
    | (Return v, w') =>
        if validates_return && negb (annotation v)
        then ({| status := 500; body := PlainText "Internal Server Error" |}, w')
        else ({| status := success_status; body := JSON v |}, w')
    | (Raise (HTTPException code detail), w') =>
        ({| status := code; body := JSON (PDict {[ "detail" := detail ]}) |}, w')
    | (Raise (RequestValidationError fields), w') =>
        ({| status := 422; body := ValidationErrors fields |}, w')
    | (Raise _, w') =>
        ({| status := 500; body := PlainText "Internal Server Error" |}, w')
    end.

(** [respond] is the answer as the framework decides it: the status and
    the content.  [send] is that answer once the content has gone through
    the response model, where there is one and it is applied, and has been
    rendered as JSON; the errors of a failed validation are sent with the
    inputs they refused. *)
Definition send (annotation : option (pyval → bool)) (success_status : Z)
    (m : M pyval) : world → http_response * world :=
  fun w =>
    match m w with
    | (Return v, w') =>
        match annotation with
        | Some fits =>
            if validates_return then
              if fits v then (json_response success_status (nulled v), w')
              else ({| status := 500;
                       body := PlainText "Internal Server Error" |}, w')
            else (json_response success_status v, w')
        | None => (json_response success_status v, w')
        end
    | (Raise (HTTPException code detail), w') =>
        (json_response code (PDict {[ "detail" := detail ]}), w')
    | (Raise (RequestValidationError errors), w') =>
        if forallb (fun e => encodes (snd e) && finite (snd e)) errors
        then ({| status := 422; body := ValidationErrors errors |}, w')
        else ({| status := 500; body := PlainText "Internal Server Error" |}, w')
    | (Raise _, w') =>
        ({| status := 500; body := PlainText "Internal Server Error" |}, w')
    end.

Definition app (r : request) : world → http_response * world :=
  match r with
  | GetRoot => send (Some is_str_dict) 200 read_root
  | PostProcessText payload =>
      send None 200
        (let* data := validated (validate_TextData payload) in
         process_text str data)
  | GetServicePing => send (Some is_dict) 200 proxy_ping
  | PostUsers payload =>
      send (Some is_dict) 201
        (let* supabase := get_supabase in
         let* user := validated (validate_UserCreate payload) in
         create_user user supabase)
  | GetUser user_id =>
      if routable user_id then
        send (Some is_dict) 200
          (let* supabase := get_supabase in
           get_user user_id supabase)
      else if String.eqb user_id "" then
        (* [/users/] is the path of the POST route only *)
        send None 200 (raise (http_exception 405 PNone))
      else
        (* no route has this path *)
        send None 200 (raise (http_exception 404 PNone))
  end.

(** The process serving requests one after the other.  The handlers are
    coroutines that never await between their calls to the backend, so the
    event loop runs each of them from start to end; what can overlap is
    the dependency, see [interleave] below. *)
Fixpoint serve (rs : list request) (w : world) : list http_response * world :=
  match rs with
  | [] => ([], w)
  | r :: rs' =>
      let '(resp, w') := app r w in
      let '(resps, w'') := serve rs' w' in
      (resp :: resps, w'')
  end.

(** *** Calls of the factory that overlap

    [get_supabase] is a plain function, which the framework runs in a
    thread pool, and [functools.lru_cache] does not hold its lock while the
    decorated function runs: a call looks the cache up, and on a miss runs
    the body, and then stores the result unless another call has stored one
    meanwhile; either way it returns the result of its own run.  A call is
    followed through these three steps; the body, whose only effect on
    what the calls share is the client it creates, is one step. *)
Inductive call : Type :=
| Entered
| Missed
| Built (h : handle)
| Finished (r : outcome handle).

Definition call_step (c : call) (w : world) : call * world :=
  match c with
  | Entered =>
      match lru w with
      | Some h => (Finished (Return h), w)
      | None => (Missed, w)
      end
  | Missed =>
      match get_supabase_client_body w with
      | (Return h, w') => (Built h, w')
      | (Raise e, w') => (Finished (Raise e), w')
      end
  | Built h =>
      (Finished (Return h),
       match lru w with
       | Some _ => w
       | None => set_lru (Some h) w
       end)
  | Finished r => (Finished r, w)
  end.

(** What happens in the process, one turn at a time: a call of the factory
    takes its next step, or a request is served. *)
Inductive turn : Type :=
| Advance (i : nat)
| Serve (r : request).

Fixpoint interleave (turns : list turn) (calls : list call) (w : world)
  : list call * world :=
  match turns with
  | [] => (calls, w)
  | Advance i :: turns' =>
      match calls !! i with
      | Some c =>
          let '(c', w') := call_step c w in
          interleave turns' (<[i := c']> calls) w'
      | None => interleave turns' calls w
      end
  | Serve r :: turns' => interleave turns' calls (snd (app r w))
  end.

End FrontDoor.

End Gateway.

(** ** Test doubles

    A backend that answers every sign-up and every query with a fixed
    reply, and a downstream service that answers every GET the same way. *)

Record canned_backend : Type := {
  sign_up_reply : pyval;
  execute_reply : query_result
}.

#[export] Instance canned_Backend : Backend canned_backend := {|
  backend_sign_up := fun _ b => (sign_up_reply b, b);
  backend_execute := fun _ b => (execute_reply b, b)
|}.

#[export] Instance canned_Service : Service transport := {|
  service_get := fun _ t => (t, t)
|}.

(** A clock that starts at noon and advances one microsecond per instant. *)
Definition ticking (n : nat) : datetime :=
  {| year := 2024; month := 5; day := 17;
     hour := 12; minute := 0; second := 0; microsecond := n |}.

(** A library that takes a URL starting with [http://] or [https://], and
    a console that writes UTF-8. *)
Definition http_url (url key : string) : bool :=
  String.prefix "http://" url && (7 <? String.length url)%nat
  || String.prefix "https://" url && (8 <? String.length url)%nat.

Definition utf8_console (line : string) : bool := negb (has_surrogate line).

Definition fresh_world (env : gmap string string) (installed : bool)
    (b : canned_backend) (d : transport) : world canned_backend transport :=
  World env installed http_url utf8_console None 0%nat b d ticking 0%nat [].

Definition configured : gmap string string :=
  {[ "SUPABASE_URL" := "https://example.supabase.co";
     "SUPABASE_ANON_KEY" := "anon-key" ]}.

Definition ok_body : pyval := PDict {[ "status" := PStr "ok" ]}.

Definition pong_response : response :=
  {| status_code := 200; json_body := Some ok_body |}.

Definition pong : transport := Responded pong_response.

Definition str_stub (e : exn) : string := "error".

Definition alice : UserCreate :=
  {| email := "alice@example.com"; password := "correct horse" |}.

Definition client0 : handle :=
  Handle 0 "https://example.supabase.co" "anon-key".

Definition alice_record : gmap string pyval :=
  {[ "id" := PStr "7f3c"; "email" := PStr "alice@example.com" ]}.


(** Sign-up replies: a user, an error, and neither. *)
Definition signed_up : gmap string pyval := {[ "user" := PDict alice_record ]}.
Definition blank : gmap string pyval := ∅.



Definition backend_replying (reply : gmap string pyval) (e : option api_error)
  : canned_backend :=
  {| sign_up_reply := PDict reply;
     execute_reply := {| data := PNone; error := e |} |}.

Definition short_password_payload : pyval :=
  PDict {[ "email" := PStr "alice@example.com"; "password" := PStr "short" ]}.

Definition alice_payload : pyval :=
  PDict {[ "email" := PStr "alice@example.com";
           "password" := PStr "correct horse" ]}.

Definition text_payload : pyval :=
  PDict {[ "text" := PStr "hello"; "timestamp" := PStr "2024-05-17T11:59:59";
           "source" := PStr "form" ]}.



(** A sign-up reply whose error is a bare string. *)
Definition refused_in_words : gmap string pyval :=
  {[ "error" := PStr "User already exists" ]}.

Definition text_without_source : pyval :=
  PDict {[ "text" := PStr "hello"; "timestamp" := PStr "2024-05-17T11:59:59" ]}.

Definition hello : TextData :=
  {| text := "hello"; timestamp := "2024-05-17T11:59:59"; source := "form" |}.





Definition listing_body : pyval := PList [PStr "ok"].





(** A password of seven characters, one of which takes two bytes. *)
Definition umlaut_password_payload : pyval :=
  PDict {[ "email" := PStr "alice@example.com"; "password" := PStr "passwör" ]}.

(** The JSON text ["\ud800"] as a [str]: U+D800, a surrogate on its own. *)
Definition lone_surrogate : string :=
  String (ascii_of_nat 237) (String (ascii_of_nat 160)
    (String (ascii_of_nat 128) EmptyString)).

Definition surrogate_payload : pyval :=
  PDict {[ "text" := PStr lone_surrogate;
           "timestamp" := PStr "2024-05-17T11:59:59";
           "source" := PStr "form" ]}.

(** A clock that is set back by five microseconds after its second
    reading. *)
Definition set_back (n : nat) : datetime :=
  if (n <? 2)%nat then ticking (5 + n) else ticking (n - 2).

Definition world_set_back : world canned_backend transport :=
  World ∅ false http_url utf8_console None 0%nat
    {| sign_up_reply := PNone;
       execute_reply := {| data := PNone; error := None |} |}
    pong set_back 0%nat [].

(** An environment whose URL is no URL. *)
Definition misconfigured : gmap string string :=
  {[ "SUPABASE_URL" := "not-a-url"; "SUPABASE_ANON_KEY" := "anon-key" ]}.

(** * Vocabulary of the properties *)

Section Vocabulary.
Context {B D : Type} `{!Backend B} `{!Service D}.

Abbreviation world := (world B D).

(** An outbound GET. *)
Definition is_get (e : event) : bool :=
  match e with EvGet _ _ => true | _ => false end.

(** The dictionary [create_user] passes to [sign_up]. *)
Definition credentials (user : UserCreate) : gmap string pyval :=
  {[ "email" := PStr (email user); "password" := PStr (password user) ]}.

(** The row [create_user] inserts, and the dictionary it returns. *)
Definition id_email (i m : pyval) : gmap string pyval :=
  {[ "id" := i; "email" := m ]}.

(** The world after the calls [calls], which left the backend in [b]. *)
Definition after (calls : list event) (b : B) (w : world) : world :=
  set_backend b (set_trace (trace w ++ calls) w).

(** An exception the handler neither raises on purpose nor catches. *)
Definition unhandled (e : exn) : Prop :=
  match e with
  | HTTPException _ _ => False
  | _ => True
  end.

(** [not url or not key] *)
Definition unconfigured (w : world) : bool :=
  not_str (environ w !! "SUPABASE_URL")
  || not_str (environ w !! "SUPABASE_ANON_KEY").

(** The world after [create_client] returned [h] and the cache kept it. *)
Definition constructed (h : handle) (w : world) : world :=
  set_lru (Some h)
    (set_trace (trace w ++ [EvCreateClient h]) (set_next_id (S (next_id w)) w)).

(** The five ways a call of [get_supabase_client] can go. *)
Inductive construction (w : world) : outcome handle * world → Prop :=
| cache_hit h :
    lru w = Some h →
    construction w (Return h, w)
| configuration_error :
    lru w = None → unconfigured w = true →
    construction w (Raise (RuntimeError config_error_message), w)
| dependency_error :
    lru w = None → unconfigured w = false → supabase_installed w = false →
    construction w (Raise (RuntimeError dependency_error_message), w)
| client_refused url key :
    lru w = None → unconfigured w = false → supabase_installed w = true →
    environ w !! "SUPABASE_URL" = Some url →
    environ w !! "SUPABASE_ANON_KEY" = Some key →
    client_accepts w url key = false →
    construction w (Raise SupabaseException, w)
| cache_fill url key :
    lru w = None → unconfigured w = false → supabase_installed w = true →
    environ w !! "SUPABASE_URL" = Some url →
    environ w !! "SUPABASE_ANON_KEY" = Some key →
    client_accepts w url key = true →
    construction w
      (Return (Handle (next_id w) url key),
       constructed (Handle (next_id w) url key) w).

(** A call to the backend proper: a sign-up or an executed query. *)
Definition is_backend_call (e : event) : bool :=
  match e with
  | EvSignUp _ | EvExecute _ => true
  | _ => false
  end.

(** The wall clock is never set back. *)
Definition clock_runs_forward (w : world) : Prop :=
  ∀ n, datetime_le (wall w n) (wall w (S n)) = true.

(** The body [process_text] answers with. *)
Definition acknowledgement (received : string) (processed : datetime)
  : gmap string pyval :=
  {[ "status" := PStr "success";
     "message" := PStr "데이터가 성공적으로 처리되었습니다";
     "received_text" := PStr received;
     "processed_at" := PStr (isoformat processed) ]}.

(** The client objects [create_client] has made so far. *)
Definition created (t : list event) : list handle :=
  omap (fun e => match e with EvCreateClient h => Some h | _ => None end) t.

(** The cache holds the one handle that was made, or none was made. *)
Definition one_handle (w : world) : Prop :=
  created (trace w) = option_list (lru w).

(** What the factory reads and what it makes: the environment, whether
    [supabase] can be imported, the cache, the clients created. *)
Definition footprint (w : world)
  : gmap string string * bool * option handle * list handle :=
  (environ w, supabase_installed w, lru w, created (trace w)).

(** A computation that leaves all of that alone. *)
Definition quiet {A} (m : M B D A) : Prop :=
  ∀ w, footprint (snd (m w)) = footprint w.

(** A cached handle was made with the configuration and the library there. *)
Definition settled (w : world) : Prop :=
  ∀ h, lru w = Some h → unconfigured w = false ∧ supabase_installed w = true.

(** The two invariants of a process. *)
Definition steady (w : world) : Prop := one_handle w ∧ settled w.

(** The answer to an exception the framework knows nothing about. *)
Definition internal_server_error : http_response :=
  {| status := 500; body := PlainText "Internal Server Error" |}.

(** What [GET /] answers. *)
Definition root_answer : http_response :=
  {| status := 200;
     body := JSON (PDict {[ "message" := PStr "Gateway is working" ]}) |}.

(** The routes mounted under [/users]. *)
Definition is_users_request (r : request) : bool :=
  match r with
  | PostUsers _ | GetUser _ => true
  | _ => false
  end.

(** The requests that one of the two routes takes. *)
Definition reaches_users_route (r : request) : bool :=
  match r with
  | PostUsers _ => true
  | GetUser user_id => routable user_id
  | _ => false
  end.

Definition is_ping (r : request) : bool :=
  match r with
  | GetServicePing => true
  | _ => false
  end.

(** The URLs of the outbound GETs made so far, in order. *)
Definition gets (t : list event) : list string :=
  omap (fun e => match e with EvGet _ url => Some url | _ => None end) t.

(** What the backend sees of the gateway: its own state and the calls it
    received. *)
Definition backend_side (w : world) : B * list event :=
  (backend w, filter is_backend_call (trace w)).

(** What the downstream service sees of the gateway. *)
Definition downstream_side (w : world) : D * list string :=
  (service w, gets (trace w)).

(** A computation that leaves the observation [f] of the world alone. *)
Definition keeps {A X} (f : world → X) (m : M B D A) : Prop :=
  ∀ w, f (snd (m w)) = f w.

(** The console takes every line of [lines]. *)
Definition printable (w : world) (lines : list event) : bool :=
  forallb (fun e => match e with
                    | EvPrint line => stdout_accepts w line
                    | _ => true
                    end) lines.

(** A response whose content can be rendered. *)
Definition renders (r : http_response) : bool :=
  match body r with
  | JSON v => encodes v && finite v
  | ValidationErrors errors =>
      forallb (fun e => encodes (snd e) && finite (snd e)) errors
  | PlainText _ => true
  end.


(** The lines [process_text] prints for [data] when the clock reads
    [logged]. *)
Definition log_lines (data : TextData) (logged : datetime) : list event :=
  [EvPrint rule;
   EvPrint "📝 FRONTEND에서 전송된 데이터:";
   EvPrint ("📄 텍스트: " +:+ text data);
   EvPrint ("⏰ 타임스탬프: " +:+ timestamp data);
   EvPrint ("🔗 소스: " +:+ source data);
   EvPrint ("🕐 처리 시간: " +:+ isoformat logged);
   EvPrint rule].

End Vocabulary.

(** * Properties *)

(** ** Values on their way out *)

Section Rendering.

(** A fold of conjunctions over a [dict] holds iff every entry passes. *)
Lemma map_fold_all {A} (p : string → A → bool) (d : gmap string A) :
  map_fold (fun k x rest => p k x && rest) true d = true
  ↔ map_Forall (fun k x => p k x = true) d.
Proof.
  apply (map_fold_weak_ind
           (fun b m => b = true ↔ map_Forall (fun k x => p k x = true) m)).
  - split; [intros _; apply map_Forall_empty|done].
  - intros k x m r Hk IH. rewrite map_Forall_insert by done.
    rewrite andb_true_iff. by rewrite IH.
Qed.

Lemma encodes_dict (d : gmap string pyval) :
  encodes (PDict d) = true
  ↔ ∀ k v, d !! k = Some v → has_surrogate k = false ∧ encodes v = true.
Proof.
  change (encodes (PDict d))
    with (map_fold (fun k x rest => negb (has_surrogate k) && encodes x && rest)
            true d).
  rewrite (map_fold_all (fun k x => negb (has_surrogate k) && encodes x)).
  unfold map_Forall. split; intros Hall k v Hk; specialize (Hall k v Hk).
  - apply andb_true_iff in Hall as [Hkey Hv].
    by apply negb_true_iff in Hkey.
  - destruct Hall as [-> ->]. done.
Qed.

Lemma finite_dict (d : gmap string pyval) :
  finite (PDict d) = true ↔ ∀ k v, d !! k = Some v → finite v = true.
Proof.
  change (finite (PDict d))
    with (map_fold (fun (_ : string) x rest => finite x && rest) true d).
  by rewrite (map_fold_all (fun _ x => finite x)).
Qed.

Lemma encodes_list (l : list pyval) :
  encodes (PList l) = true ↔ ∀ v, v ∈ l → encodes v = true.
Proof.
  change (encodes (PList l)) with (forallb encodes l).
  rewrite forallb_forall. split; intros Hall v Hv; apply Hall;
    by apply list_elem_of_In.
Qed.

Lemma finite_list (l : list pyval) :
  finite (PList l) = true ↔ ∀ v, v ∈ l → finite v = true.
Proof.
  change (finite (PList l)) with (forallb finite l).
  rewrite forallb_forall. split; intros Hall v Hv; apply Hall;
    by apply list_elem_of_In.
Qed.

Lemma pyval_size_item (l : list pyval) v :
  v ∈ l → (pyval_size v < pyval_size (PList l))%nat.
Proof.
  simpl. induction 1 as [v l|v x l _ IH]; simpl; lia.
Qed.

Lemma pyval_size_entry (d : gmap string pyval) k v :
  d !! k = Some v → (pyval_size v < pyval_size (PDict d))%nat.
Proof.
  change (pyval_size (PDict d))
    with (S (map_fold (fun (_ : string) x rest => pyval_size x + rest)%nat
               0%nat d)).
  revert k v.
  apply (map_fold_weak_ind
           (fun n (m : gmap string pyval) =>
              ∀ k v, m !! k = Some v → (pyval_size v < S n)%nat)).
  - intros k v. by rewrite lookup_empty.
  - intros i x m r Hi IH k v.
    destruct (decide (k = i)) as [->|Hne].
    + rewrite lookup_insert_eq. intros [= ->]. lia.
    + rewrite lookup_insert_ne by done. intros Hk.
      specialize (IH k v Hk). lia.
Qed.

(** Induction on a value, with what it holds. *)
Lemma pyval_holds_ind (P : pyval → Prop) :
  P PNone →
  (∀ b, P (PBool b)) →
  (∀ z, P (PInt z)) →
  (∀ bits, P (PFloat bits)) →
  (∀ s, P (PStr s)) →
  (∀ l, (∀ v, v ∈ l → P v) → P (PList l)) →
  (∀ d, (∀ k v, d !! k = Some v → P v) → P (PDict d)) →
  ∀ v, P v.
Proof.
  intros Hnone Hbool Hint Hfloat Hstr Hlist Hdict v.
  assert (∀ n v, (pyval_size v < n)%nat → P v) as Hsize.
  { clear v. induction n as [|n IH]; intros v Hn; [lia|].
    destruct v as [|b|z|bits|s|l|d]; auto.
    - apply Hlist. intros v Hv. apply IH.
      pose proof (pyval_size_item l v Hv). lia.
    - apply Hdict. intros k v Hv. apply IH.
      pose proof (pyval_size_entry d k v Hv). lia. }
  apply (Hsize (S (pyval_size v))). lia.
Qed.

(** A value of finite numbers goes through the response model as it is. *)
Lemma nulled_finite v : finite v = true → nulled v = v.
Proof.
  induction v as [| | |bits| |l IH|d IH] using pyval_holds_ind;
    [reflexivity..| |reflexivity| |].
  - change (is_finite bits = true
            → (if is_finite bits then PFloat bits else PNone) = PFloat bits).
    by intros ->.
  - rewrite finite_list. intros Hall.
    change (nulled (PList l)) with (PList (map nulled l)). f_equal.
    induction l as [|x l IHl]; [reflexivity|]. cbn [map]. f_equal.
    + apply IH; [left|]. apply Hall. left.
    + apply IHl.
      * intros v Hv. apply IH. by right.
      * intros v Hv. apply Hall. by right.
  - rewrite finite_dict. intros Hall.
    change (nulled (PDict d)) with (PDict (nulled <$> d)). f_equal.
    apply map_eq. intros k. rewrite lookup_fmap.
    destruct (d !! k) as [v|] eqn:Hk; [|reflexivity]. cbn [fmap option_fmap option_map]. f_equal.
    apply (IH k v Hk), (Hall k v Hk).
Qed.

(** What the response model sends has finite numbers only, and the text
    it had. *)
Lemma finite_nulled v : finite (nulled v) = true.
Proof.
  induction v as [| | |bits| |l IH|d IH] using pyval_holds_ind;
    [reflexivity..| |reflexivity| |].
  - change (finite (if is_finite bits then PFloat bits else PNone) = true).
    by destruct (is_finite bits) eqn:Hbits.
  - change (nulled (PList l)) with (PList (map nulled l)).
    apply finite_list. intros v Hv.
    apply list_elem_of_fmap in Hv as (x & -> & Hx). by apply IH.
  - change (nulled (PDict d)) with (PDict (nulled <$> d)).
    apply finite_dict. intros k v. rewrite lookup_fmap.
    destruct (d !! k) as [x|] eqn:Hk; [|intros [=]]. intros [= <-].
    apply (IH k x Hk).
Qed.

Lemma encodes_nulled v : encodes (nulled v) = encodes v.
Proof.
  induction v as [| | |bits| |l IH|d IH] using pyval_holds_ind;
    [reflexivity..| |reflexivity| |].
  - change (encodes (if is_finite bits then PFloat bits else PNone) = true).
    by destruct (is_finite bits).
  - change (nulled (PList l)) with (PList (map nulled l)).
    change (encodes (PList (map nulled l)) = encodes (PList l))
      with (forallb encodes (map nulled l) = forallb encodes l).
    induction l as [|x l IHl]; [reflexivity|]. cbn [map forallb]. f_equal.
    + apply IH. left.
    + apply IHl. intros v Hv. apply IH. by right.
  - change (nulled (PDict d)) with (PDict (nulled <$> d)).
    apply eq_true_iff_eq. rewrite !encodes_dict.
    split; intros Hall k v Hk.
    + specialize (Hall k (nulled v)). rewrite lookup_fmap, Hk in Hall.
      destruct (Hall eq_refl) as [Hkey Hv]. split; [exact Hkey|].
      rewrite <- (IH k v Hk). exact Hv.
    + rewrite lookup_fmap in Hk.
      destruct (d !! k) as [x|] eqn:Hx; [|discriminate Hk].
      injection Hk as <-.
      destruct (Hall k x Hx) as [Hkey Hv]. split; [exact Hkey|].
      rewrite (IH k x Hx). exact Hv.
Qed.

(** The content of an error answer. *)
Lemma encodes_detail v :
  encodes (PDict {[ "detail" := v ]}) = encodes v.
Proof.
  change (encodes (PDict {[ "detail" := v ]}))
    with (map_fold
            (fun k x rest => negb (has_surrogate k) && encodes x && rest)
            true ({[ "detail" := v ]} : gmap string pyval)).
  rewrite map_fold_singleton. cbn [has_surrogate]. rewrite andb_true_r.
  reflexivity.
Qed.

Lemma finite_detail v :
  finite (PDict {[ "detail" := v ]}) = finite v.
Proof.
  change (finite (PDict {[ "detail" := v ]}))
    with (map_fold (fun (_ : string) x rest => finite x && rest)
            true ({[ "detail" := v ]} : gmap string pyval)).
  rewrite map_fold_singleton. apply andb_true_r.
Qed.

Lemma json_response_detail code v :
  json_response code (PDict {[ "detail" := v ]})
  = if encodes v && finite v
    then {| status := code; body := JSON (PDict {[ "detail" := v ]}) |}
    else {| status := 500; body := PlainText "Internal Server Error" |}.
Proof. unfold json_response. by rewrite encodes_detail, finite_detail. Qed.

(** Text in ASCII has no surrogate in it. *)
Lemma is_ascii_app s t : is_ascii (s +:+ t) = is_ascii s && is_ascii t.
Proof.
  induction s as [|a s IH]; [done|]. simpl. rewrite IH. apply andb_assoc.
Qed.

Lemma has_surrogate_ascii s : is_ascii s = true → has_surrogate s = false.
Proof.
  induction s as [|a s IH]; [done|]. simpl.
  intros [Ha Hs]%andb_true_iff. rewrite (IH Hs).
  apply Nat.ltb_lt in Ha.
  destruct s as [|b s]; [done|].
  destruct (Nat.eqb_spec (nat_of_ascii a) 237); [lia|done].
Qed.

(** After a prefix in ASCII, a surrogate is one of the rest. *)
Lemma has_surrogate_after s t :
  is_ascii s = true → has_surrogate (s +:+ t) = has_surrogate t.
Proof.
  induction s as [|a s IH]; [done|].
  simpl is_ascii. intros [Ha Hs]%andb_true_iff.
  change (String a s +:+ t) with (String a (s +:+ t)).
  simpl has_surrogate. rewrite (IH Hs).
  apply Nat.ltb_lt in Ha.
  destruct (s +:+ t) as [|b r]; [by destruct t|].
  destruct (Nat.eqb_spec (nat_of_ascii a) 237); [lia|done].
Qed.

Lemma is_ascii_pretty_N_go (x : N) s :
  is_ascii s = true → is_ascii (pretty_N_go x s) = true.
Proof.
  revert s. induction (N.lt_wf_0 x) as [x _ IH]. intros s Hs.
  destruct (decide (x = 0%N)) as [->|Hx].
  - by rewrite pretty_N_go_0.
  - rewrite pretty_N_go_step by lia.
    apply IH; [apply N.div_lt; lia|].
    simpl. rewrite Hs, andb_true_r.
    unfold pretty_N_char.
    by repeat match goal with |- context [match ?y with _ => _ end] =>
                destruct y end.
Qed.

Lemma is_ascii_pretty (n : nat) : is_ascii (pretty n) = true.
Proof.
  unfold pretty, pretty_nat, pretty, pretty_N.
  destruct (decide _); [done|]. by apply is_ascii_pretty_N_go.
Qed.

Lemma is_ascii_zeros n :
  is_ascii (String.concat "" (replicate n "0")) = true.
Proof.
  induction n as [|n IH]; [done|]. simpl.
  destruct (replicate n "0") as [|z zs] eqn:Hz; [done|].
  rewrite <- Hz in *. simpl. exact IH.
Qed.

Lemma is_ascii_zero_padded width n : is_ascii (zero_padded width n) = true.
Proof.
  unfold zero_padded. rewrite is_ascii_app, is_ascii_zeros, is_ascii_pretty.
  done.
Qed.

Lemma is_ascii_isoformat t : is_ascii (isoformat t) = true.
Proof.
  unfold isoformat. rewrite !is_ascii_app, !is_ascii_zero_padded.
  destruct (microsecond t); [done|].
  by rewrite is_ascii_app, is_ascii_zero_padded.
Qed.

End Rendering.

Section Properties.
Context {B D : Type} `{!Backend B} `{!Service D}.
Variable validates_return : bool.
Variable str : exn → string.

Abbreviation world := (world B D).

(** Unfolding a run of the monad, and comparing two worlds field by field. *)
Ltac run :=
  unfold try_except, try_finally, bind, emit, new_object, getenv,
    datetime_now, ret, raise;
  simpl.

Ltac same_world :=
  unfold set_service, set_backend, set_trace, set_lru, set_next_id, set_tick;
  simpl; rewrite <- ?app_assoc; reflexivity.

(** ** The front door *)

Lemma respond_world annotation code (m : M B D pyval) (w : world) :
  snd (respond validates_return annotation code m w) = snd (m w).
Proof.
  unfold respond. destruct (m w) as [[v|e] w1].
  - by destruct (validates_return && negb (annotation v)).
  - by destruct e.
Qed.

(** A returned [dict] fits the annotation of every annotated handler. *)
Lemma respond_dict code (m : M B D pyval) (w : world) d w1 :
  m w = (Return (PDict d), w1) →
  respond validates_return is_dict code m w
  = ({| status := code; body := JSON (PDict d) |}, w1).
Proof.
  intros Hrun. unfold respond. rewrite Hrun. simpl.
  by rewrite andb_false_r.
Qed.

Lemma respond_raised annotation code (m : M B D pyval) (w : world) e w1 :
  m w = (Raise e, w1) →
  respond validates_return annotation code m w
  = (match e with
     | HTTPException status detail =>
         {| status := status; body := JSON (PDict {[ "detail" := detail ]}) |}
     | RequestValidationError fields =>
         {| status := 422; body := ValidationErrors fields |}
     | _ => {| status := 500; body := PlainText "Internal Server Error" |}
     end, w1).
Proof.
  intros Hrun. unfold respond. rewrite Hrun. by destruct e.
Qed.

(** What is sent changes nothing. *)
Lemma send_world annotation code (m : M B D pyval) (w : world) :
  snd (send validates_return annotation code m w) = snd (m w).
Proof.
  unfold send. destruct (m w) as [[v|e] w1].
  - destruct annotation as [fits|]; [|reflexivity].
    destruct validates_return; [|reflexivity]. by destruct (fits v).
  - destruct e; try reflexivity. by destruct (forallb _ _).
Qed.

(** The response model lets a value through with its numbers made finite,
    so what is left to go wrong is the text. *)
Lemma json_response_nulled code v :
  json_response code (nulled v)
  = if encodes v then {| status := code; body := JSON (nulled v) |}
    else internal_server_error.
Proof.
  unfold json_response. by rewrite encodes_nulled, finite_nulled, andb_true_r.
Qed.

(** The answer to a value returned under a [dict] annotation. *)
Lemma send_returned code (m : M B D pyval) (w : world) v w1 :
  m w = (Return v, w1) →
  send validates_return (Some is_dict) code m w
  = (if validates_return then
       if is_dict v && encodes v
       then {| status := code; body := JSON (nulled v) |}
       else internal_server_error
     else
       if encodes v && finite v
       then {| status := code; body := JSON v |}
       else internal_server_error, w1).
Proof.
  intros Hrun. unfold send. rewrite Hrun.
  destruct validates_return; [|reflexivity].
  destruct (is_dict v); [|reflexivity].
  by rewrite json_response_nulled.
Qed.

(** The answer to an exception. *)
Lemma send_raised annotation code (m : M B D pyval) (w : world) e w1 :
  m w = (Raise e, w1) →
  send validates_return annotation code m w
  = (match e with
     | HTTPException status detail =>
         if encodes detail && finite detail
         then {| status := status;
                 body := JSON (PDict {[ "detail" := detail ]}) |}
         else internal_server_error
     | RequestValidationError errors =>
         if forallb (fun e => encodes (snd e) && finite (snd e)) errors
         then {| status := 422; body := ValidationErrors errors |}
         else internal_server_error
     | _ => internal_server_error
     end, w1).
Proof.
  intros Hrun. unfold send. rewrite Hrun.
  destruct e; try reflexivity.
  - by rewrite json_response_detail.
  - by destruct (forallb _ _).
Qed.

(** What is sent is what [respond] decides, whenever that can be
    rendered. *)
Lemma send_respond fits code (m : M B D pyval) (w : world) :
  renders (fst (respond validates_return fits code m w)) = true →
  send validates_return (Some fits) code m w
  = respond validates_return fits code m w.
Proof.
  unfold send, respond, renders. destruct (m w) as [[v|e] w1].
  - destruct validates_return, (fits v); cbn [andb negb fst body];
      try reflexivity; intros Hv; unfold json_response.
    + apply andb_true_iff in Hv as [Henc Hfin].
      by rewrite (nulled_finite v Hfin), Henc, Hfin.
    + by rewrite Hv.
    + by rewrite Hv.
  - destruct e; cbn [fst body]; try reflexivity; intros He.
    + unfold json_response. by rewrite He.
    + by rewrite He.
Qed.

(** ** The reverse proxy *)

Lemma proxy_ping_run (w : world) :
  let c := next_id w in
  let result := service_get ping_url (service w) in
  proxy_ping w
  = (match fst result with
     | Responded r =>
         if is_success r then
           match json_body r with
           | Some j => Return j
           | None => Raise JSONDecodeError
           end
         else Raise (HTTPStatusError (status_code r))
     | Unreachable => Raise ConnectError
     end,
     set_service (snd result)
       (set_trace (trace w ++ [EvClientOpen c; EvGet c ping_url;
                               EvClientClose c])
          (set_next_id (S c) w))).
Proof.
  cbv zeta.
  unfold proxy_ping, async_with_client, AsyncClient, aclose,
    client_get, raise_for_status, response_json.
  run.
  destruct (service_get ping_url (service w)) as [t d] eqn:Hget.
  simpl.
  destruct t as [r|]; simpl; [|f_equal; same_world].
  destruct (is_success r); simpl; [|f_equal; same_world].
  destruct (json_body r) as [j|]; simpl; f_equal; same_world.
Qed.


(** ** The user service *)

(** The routes of the user service, once the handle is there and the body
    is valid, are their handlers. *)
Lemma post_users_valid (w : world) payload user supabase w1 :
  get_supabase w = (Return supabase, w1) →
  validate_UserCreate payload = inr user →
  app validates_return str (PostUsers payload) w
  = send validates_return (Some is_dict) 201 (create_user user supabase) w1.
Proof.
  intros Hget Hval. unfold app, send, bind, validated.
  rewrite Hget, Hval. reflexivity.
Qed.


(** What [create_user] does once sign-up has returned a user with an [id]
    and an [email] and no error: whatever the insert returns, the result is
    the pair. *)
Lemma create_user_signed_up user supabase (w : world) r b1 u i m :
  backend_sign_up (credentials user) (backend w) = (PDict r, b1) →
  truthy (default PNone (r !! "error")) = false →
  r !! "user" = Some (PDict u) →
  u !! "id" = Some i →
  u !! "email" = Some m →
  create_user user supabase w
  = (Return (PDict (id_email i m)),
     after [EvSignUp (credentials user);
            EvExecute (QInsert "users" (id_email i m))]
       (snd (backend_execute (QInsert "users" (id_email i m)) b1)) w).
Proof.
  intros Hsign Herr Huser Hid Hmail.
  unfold create_user, sign_up, execute, py_get, py_get_default, py_getitem,
    table, insert, after.
  fold (credentials user). run.
  rewrite Hsign. simpl. rewrite Herr. simpl.
  rewrite Huser. simpl. rewrite Hid, Hmail. simpl.
  fold (id_email i m).
  destruct (backend_execute _ b1) as [qr b2]. simpl.
  f_equal. same_world.
Qed.





(** C10: a sign-up result with no truthy [error] and either no [user] (or
    [None] for it) or a [user] without [id] or without [email] makes
    [create_user] raise [TypeError] or [KeyError] where it reads the user:
    neither the 400 nor a result, and no insert; the route answers 500. *)
Theorem create_user_without_user user supabase (w : world) r b1 :
  backend_sign_up (credentials user) (backend w) = (PDict r, b1) →
  truthy (default PNone (r !! "error")) = false →
  (default PNone (r !! "user") = PNone
   ∨ ∃ u, r !! "user" = Some (PDict u)
          ∧ (u !! "id" = None ∨ u !! "email" = None)) →
  ∃ e,
    create_user user supabase w
    = (Raise e, after [EvSignUp (credentials user)] b1 w)
    ∧ (e = TypeError ∨ e = KeyError "id" ∨ e = KeyError "email")
    ∧ unhandled e
    ∧ fst (respond validates_return is_dict 201 (create_user user supabase) w)
      = {| status := 500; body := PlainText "Internal Server Error" |}.
Proof.
  intros Hsign Herr Hcase.
  assert (∃ e, create_user user supabase w
               = (Raise e, after [EvSignUp (credentials user)] b1 w)
               ∧ (e = TypeError ∨ e = KeyError "id" ∨ e = KeyError "email"))
    as (e & Hrun & He).
  { unfold create_user, sign_up, execute, py_get, py_get_default, py_getitem,
      table, insert, after.
    fold (credentials user). run.
    rewrite Hsign. simpl. rewrite Herr. simpl.
    destruct Hcase as [Hnone | (u & Huser & Hmiss)].
    - rewrite Hnone. simpl. eauto.
    - rewrite Huser. simpl.
      destruct (u !! "id") as [i|] eqn:Hid; simpl.
      + destruct Hmiss as [Hmiss | Hmiss]; [discriminate|].
        rewrite Hmiss. simpl. eauto.
      + eauto. }
  exists e. split; [exact Hrun|]. split; [exact He|].
  rewrite (respond_raised _ _ _ _ _ _ Hrun).
  destruct He as [-> | [-> | ->]]; simpl; auto.
Qed.



(** ** The backend client factory *)

Lemma get_supabase_client_construction (w : world) :
  construction w (get_supabase_client w).
Proof.
  unfold get_supabase_client, lru_cache.
  destruct (lru w) as [h|] eqn:Hlru; [by apply cache_hit|].
  unfold get_supabase_client_body, import_supabase, create_client. run.
  destruct (not_str (environ w !! "SUPABASE_URL")
            || not_str (environ w !! "SUPABASE_ANON_KEY")) eqn:Hconf.
  - by apply configuration_error.
  - destruct (supabase_installed w) eqn:Hlib; simpl.
    + apply orb_false_elim in Hconf as [Hu Hk].
      destruct (environ w !! "SUPABASE_URL") as [url|] eqn:Hurl;
        [|discriminate].
      destruct (environ w !! "SUPABASE_ANON_KEY") as [key|] eqn:Hkey;
        [|discriminate].
      simpl.
      assert (unconfigured w = false) as Hconf.
      { unfold unconfigured. rewrite Hurl, Hkey. by apply orb_false_intro. }
      destruct (client_accepts w url key) eqn:Hclient; simpl.
      * replace (set_lru _ _)
          with (constructed (Handle (next_id w) url key) w)
          by (unfold constructed; same_world).
        by apply cache_fill.
      * by apply (client_refused w url key).
    + by apply dependency_error.
Qed.

(** ** Validation at the front door *)

Lemma get_supabase_no_backend_call (w : world) :
  filter is_backend_call (trace (snd (get_supabase w)))
  = filter is_backend_call (trace w).
Proof.
  unfold get_supabase.
  destruct (get_supabase_client_construction w); try reflexivity.
  unfold constructed. simpl. rewrite filter_app. simpl. apply app_nil_r.
Qed.

(** The factory raises nothing the framework has an answer for. *)
Lemma get_supabase_raises (w : world) e w1 :
  get_supabase w = (Raise e, w1) →
  (∃ msg, e = RuntimeError msg) ∨ e = SupabaseException.
Proof.
  unfold get_supabase. intros Hrun.
  pose proof (get_supabase_client_construction w) as Hc.
  rewrite Hrun in Hc. inversion Hc; eauto.
Qed.

(** What the body of a request holds renders when the body does. *)
Lemma field_error_renders (d : gmap string pyval) name :
  encodes (PDict d) = true → finite (PDict d) = true →
  encodes (snd (field_error d name)) && finite (snd (field_error d name))
  = true.
Proof.
  intros Henc Hfin. unfold field_error. simpl.
  destruct (d !! name) as [v|] eqn:Hv; simpl.
  - destruct (proj1 (encodes_dict d) Henc name v Hv) as [_ ->].
    by rewrite (proj1 (finite_dict d) Hfin name v Hv).
  - by rewrite Henc, Hfin.
Qed.

Lemma str_errors_render (d : gmap string pyval) name :
  encodes (PDict d) = true → finite (PDict d) = true →
  forallb (fun e => encodes (snd e) && finite (snd e)) (str_errors d name)
  = true.
Proof.
  intros Henc Hfin. unfold str_errors.
  pose proof (field_error_renders d name Henc Hfin) as Hfield.
  destruct (d !! name) as [[]|]; cbn [forallb]; by rewrite ?Hfield.
Qed.

Lemma min_length_errors_render n (d : gmap string pyval) name :
  encodes (PDict d) = true → finite (PDict d) = true →
  forallb (fun e => encodes (snd e) && finite (snd e))
    (min_length_errors n d name)
  = true.
Proof.
  intros Henc Hfin. unfold min_length_errors.
  pose proof (field_error_renders d name Henc Hfin) as Hfield.
  destruct (d !! name) as [[| | | |s| |]|]; cbn [forallb];
    rewrite ?Hfield; try done.
  destruct (negb (has_surrogate s) && (n <=? py_len s)%nat); cbn [forallb];
    by rewrite ?Hfield.
Qed.

(** C5, as the code has it: a [POST /users/] whose password is a string of
    fewer than 8 characters reaches neither sign-up nor insert.  The
    framework obtains the client handle before it validates the body: when
    the handle is there (cached, or constructed now), the answer to a body
    of proper text and finite numbers is the 422 that reports the password
    at [body.password]; when obtaining it fails, the answer is 500. *)
Theorem short_password_rejected (w : world) d p :
  d !! "password" = Some (PStr p) →
  (py_len p < 8)%nat →
  let answer := app validates_return str (PostUsers (PDict d)) w in
  filter is_backend_call (trace (snd answer))
  = filter is_backend_call (trace w)
  ∧ (∀ h w1, get_supabase w = (Return h, w1) →
       encodes (PDict d) = true → finite (PDict d) = true →
       ∃ errors, answer = ({| status := 422;
                              body := ValidationErrors errors |}, w1)
                 ∧ (["body"; "password"], PStr p) ∈ errors)
  ∧ (∀ e w1, get_supabase w = (Raise e, w1) →
       answer = ({| status := 500;
                    body := PlainText "Internal Server Error" |}, w1)).
Proof.
  intros Hpw Hlen. cbv zeta.
  assert (min_length_errors 8 d "password" = [(["body"; "password"], PStr p)])
    as Hshort.
  { unfold min_length_errors, field_error. rewrite Hpw.
    assert ((8 <=? py_len p)%nat = false) as ->
      by (apply Nat.leb_gt; lia).
    by rewrite andb_false_r. }
  assert (∃ errors, validate_UserCreate (PDict d) = inl errors
                    ∧ errors = (str_errors d "email"
                                ++ min_length_errors 8 d "password")%list)
    as (errors & Hval & Herrors).
  { unfold validate_UserCreate. rewrite Hshort.
    destruct (str_errors d "email" ++ _)%list as [|x xs] eqn:Hall.
    - by destruct (str_errors d "email").
    - eauto. }
  pose proof (get_supabase_no_backend_call w) as Hquiet.
  unfold app. rewrite send_world.
  unfold send, bind.
  destruct (get_supabase w) as [[h|e] w1] eqn:Hget; simpl in *.
  - rewrite Hval. simpl. split; [exact Hquiet|]. split.
    + intros h' w1' [= <- <-] Henc Hfin. exists errors.
      assert (forallb (fun e => encodes (snd e) && finite (snd e)) errors
              = true) as ->.
      { rewrite Herrors, forallb_app.
        rewrite str_errors_render, min_length_errors_render; done. }
      split; [reflexivity|].
      rewrite Herrors, Hshort. set_solver.
    + intros e w1' [=].
  - split; [exact Hquiet|]. split.
    + intros h w1' [=].
    + intros e' w1' [= <- <-].
      by destruct (get_supabase_raises w e w1 Hget) as [[msg ->] | ->].
Qed.

(** ** Text ingestion *)

Lemma tuple_le_trans (a b c : list nat) :
  tuple_le a b = true → tuple_le b c = true → tuple_le a c = true.
Proof.
  revert b c. induction a as [|x a IH]; intros b c; [reflexivity|].
  destruct b as [|y b]; [discriminate|].
  destruct c as [|z c]; [intros _; discriminate|].
  simpl.
  destruct (Nat.ltb_spec x y), (Nat.ltb_spec y x),
    (Nat.ltb_spec y z), (Nat.ltb_spec z y),
    (Nat.ltb_spec x z), (Nat.ltb_spec z x);
    try reflexivity; try discriminate; try lia.
  apply IH.
Qed.

Lemma datetime_le_trans (a b c : datetime) :
  datetime_le a b = true → datetime_le b c = true → datetime_le a c = true.
Proof. apply tuple_le_trans. Qed.

(** Running one step from a world whose trace and clock are spelled out. *)
Lemma print_first {A} line (k : unit → M B D A) (w : world) :
  stdout_accepts w line = true →
  bind (print line) k w
  = k tt (set_tick (tick w) (set_trace (trace w ++ [EvPrint line]) w)).
Proof. intros Hline. unfold bind, print. by rewrite Hline. Qed.

Lemma print_next {A} line (k : unit → M B D A) t n (w : world) :
  stdout_accepts w line = true →
  bind (print line) k (set_tick n (set_trace t w))
  = k tt (set_tick n (set_trace (t ++ [EvPrint line]) w)).
Proof.
  intros Hline. unfold bind, print. cbn [stdout_accepts set_tick set_trace].
  by rewrite Hline.
Qed.

Lemma print_refused {A} line (k : unit → M B D A) t n (w : world) :
  stdout_accepts w line = false →
  bind (print line) k (set_tick n (set_trace t w))
  = (Raise UnicodeEncodeError, set_tick n (set_trace t w)).
Proof.
  intros Hline. unfold bind, print. cbn [stdout_accepts set_tick set_trace].
  by rewrite Hline.
Qed.

Lemma datetime_now_next {A} (k : datetime → M B D A) t n (w : world) :
  bind datetime_now k (set_tick n (set_trace t w))
  = k (wall w (S n)) (set_tick (S n) (set_trace t w)).
Proof. reflexivity. Qed.

(** On a console that takes its seven lines, [process_text] prints them,
    reads the clock twice and returns the acknowledgement. *)
Lemma process_text_run data (w : world) :
  let logged := wall w (1 + tick w)%nat in
  let returned := wall w (2 + tick w)%nat in
  printable w (log_lines data logged) = true →
  process_text str data w
  = (Return (PDict (acknowledgement (text data) returned)),
     set_tick (2 + tick w)
       (set_trace (trace w ++ log_lines data logged) w)).
Proof.
  cbv zeta. unfold printable, log_lines. cbn [forallb].
  rewrite !andb_true_iff.
  intros (H1 & H2 & H3 & H4 & H5 & H6 & H7 & _).
  unfold process_text, try_except.
  rewrite (print_first _ _ _ H1).
  rewrite (print_next _ _ _ _ _ H2), (print_next _ _ _ _ _ H3),
    (print_next _ _ _ _ _ H4), (print_next _ _ _ _ _ H5).
  rewrite datetime_now_next.
  rewrite (print_next _ _ _ _ _ H6), (print_next _ _ _ _ _ H7).
  rewrite datetime_now_next.
  unfold ret, acknowledgement. rewrite <- !app_assoc.
  reflexivity.
Qed.

Lemma validate_TextData_accepts payload t ts src :
  str_field payload "text" = Some t →
  str_field payload "timestamp" = Some ts →
  str_field payload "source" = Some src →
  validate_TextData payload
  = inr {| text := t; timestamp := ts; source := src |}.
Proof.
  unfold validate_TextData, str_errors. intros Ht Hts Hsrc.
  rewrite Ht, Hts, Hsrc.
  destruct payload as [| | | | | |d]; try discriminate.
  unfold str_field in Ht, Hts, Hsrc.
  destruct (d !! "text") as [[]|]; try discriminate.
  destruct (d !! "timestamp") as [[]|]; try discriminate.
  destruct (d !! "source") as [[]|]; try discriminate.
  reflexivity.
Qed.

(** The acknowledgement of a text without a surrogate can be rendered. *)
Lemma acknowledgement_renders t processed :
  has_surrogate t = false →
  json_response 200 (PDict (acknowledgement t processed))
  = {| status := 200; body := JSON (PDict (acknowledgement t processed)) |}.
Proof.
  intros Ht. unfold json_response.
  assert (encodes (PDict (acknowledgement t processed)) = true) as ->.
  { apply encodes_dict. intros k v. unfold acknowledgement.
    rewrite !lookup_insert_Some, lookup_singleton_Some.
    intros [[<- <-]|[_ [[<- <-]|[_ [[<- <-]|[_ [<- <-]]]]]]];
      (split; [reflexivity|]).
    - reflexivity.
    - reflexivity.
    - unfold encodes. by rewrite Ht.
    - unfold encodes.
      by rewrite (has_surrogate_ascii _ (is_ascii_isoformat processed)). }
  assert (finite (PDict (acknowledgement t processed)) = true) as ->.
  { apply finite_dict. intros k v. unfold acknowledgement.
    rewrite !lookup_insert_Some, lookup_singleton_Some.
    by intros [[<- <-]|[_ [[<- <-]|[_ [[<- <-]|[_ [<- <-]]]]]]]. }
  reflexivity.
Qed.

(** C8, as the code has it: for a payload with string fields [text],
    [timestamp] and [source], on a console that takes the seven log lines
    and for a [text] that is proper Unicode, [POST /process-text] answers
    200 with [status] ["success"], [received_text] the [text] sent, and
    [processed_at] the ISO text of the clock as the handler read it last,
    which on a clock that is never set back is no earlier than the time
    the request came in. *)
Theorem process_text_acknowledges (w : world) payload t ts src :
  str_field payload "text" = Some t →
  str_field payload "timestamp" = Some ts →
  str_field payload "source" = Some src →
  let data := {| text := t; timestamp := ts; source := src |} in
  let logged := wall w (1 + tick w)%nat in
  let processed := wall w (2 + tick w)%nat in
  let answer := app validates_return str (PostProcessText payload) w in
  printable w (log_lines data logged) = true →
  has_surrogate t = false →
  fst answer
  = {| status := 200; body := JSON (PDict (acknowledgement t processed)) |}
  ∧ acknowledgement t processed !! "status" = Some (PStr "success")
  ∧ acknowledgement t processed !! "received_text" = Some (PStr t)
  ∧ acknowledgement t processed !! "processed_at"
    = Some (PStr (isoformat processed))
  ∧ current_time (snd answer) = processed
  ∧ trace (snd answer) = (trace w ++ log_lines data logged)%list
  ∧ (clock_runs_forward w → datetime_le (current_time w) processed = true).
Proof.
  intros Ht Hts Hsrc. cbv zeta. intros Hlines Htext.
  pose proof (process_text_run _ w Hlines) as Hrun. cbv zeta in Hrun.
  assert (app validates_return str (PostProcessText payload) w
          = (json_response 200
               (PDict (acknowledgement t (wall w (2 + tick w)%nat))),
             set_tick (2 + tick w)
               (set_trace
                  (trace w
                   ++ log_lines {| text := t; timestamp := ts; source := src |}
                        (wall w (1 + tick w)%nat)) w))) as Happ.
  { unfold app, send, bind, validated.
    rewrite (validate_TextData_accepts payload t ts src Ht Hts Hsrc).
    unfold ret at 1. by rewrite Hrun. }
  rewrite Happ, (acknowledgement_renders _ _ Htext).
  split; [reflexivity|].
  split; [reflexivity|]. split; [reflexivity|]. split; [reflexivity|].
  split; [reflexivity|]. split; [reflexivity|].
  intros Hclock.
  apply datetime_le_trans with (wall w (S (tick w))); apply Hclock.
Qed.

(** ** One handle per process *)

Lemma quiet_ret {A} (a : A) : quiet (ret a : M B D A).
Proof. by intros w. Qed.

Lemma quiet_raise {A} e : quiet (raise e : M B D A).
Proof. by intros w. Qed.

Lemma quiet_bind {A C} (m : M B D A) (k : A → M B D C) :
  quiet m → (∀ a, quiet (k a)) → quiet (bind m k).
Proof.
  intros Hm Hk w. unfold bind. specialize (Hm w).
  destruct (m w) as [[a|e] w1]; simpl in *; [|done].
  by rewrite (Hk a w1).
Qed.

Lemma quiet_try_except {A} (m : M B D A) h :
  quiet m → (∀ e, quiet (h e)) → quiet (try_except m h).
Proof.
  intros Hm Hh w. unfold try_except. specialize (Hm w).
  destruct (m w) as [[a|e] w1]; simpl in *; [done|].
  by rewrite (Hh e w1).
Qed.

Lemma quiet_try_finally {A} (m : M B D A) f :
  quiet m → quiet f → quiet (try_finally m f).
Proof.
  intros Hm Hf w. unfold try_finally. specialize (Hm w).
  destruct (m w) as [r w1]; simpl in *. specialize (Hf w1).
  destruct (f w1) as [[[]|e] w2]; simpl in *; congruence.
Qed.

Lemma quiet_emit e :
  (∀ h, e ≠ EvCreateClient h) → quiet (emit e : M B D unit).
Proof.
  intros He w. unfold emit, footprint, created. simpl. f_equal.
  rewrite omap_app. simpl.
  destruct e; try apply app_nil_r. by destruct (He h).
Qed.

Lemma quiet_print line : quiet (print line : M B D unit).
Proof.
  intros w. unfold print. destruct (stdout_accepts w line); [|reflexivity].
  by apply (quiet_emit (EvPrint line)).
Qed.

Lemma quiet_new_object : quiet (new_object : M B D nat).
Proof. by intros w. Qed.

Lemma quiet_datetime_now : quiet (datetime_now : M B D datetime).
Proof. by intros w. Qed.

Lemma quiet_backend_sign_up c :
  quiet (fun w : world => let '(r, b) := backend_sign_up c (backend w) in
                          (Return r, set_backend b w)).
Proof. intros w. by destruct (backend_sign_up c (backend w)). Qed.

Lemma quiet_backend_execute q :
  quiet (fun w : world => let '(r, b) := backend_execute q (backend w) in
                          (Return r, set_backend b w)).
Proof. intros w. by destruct (backend_execute q (backend w)). Qed.

Lemma quiet_service_get url :
  quiet (fun w : world => let '(t, d) := service_get url (service w) in
                          match t with
                          | Responded r => (Return r, set_service d w)
                          | Unreachable => (Raise ConnectError, set_service d w)
                          end).
Proof. intros w. by destruct (service_get url (service w)) as [[r|] d]. Qed.

Create HintDb quiet.
#[local] Hint Resolve quiet_ret quiet_raise quiet_bind quiet_try_except
  quiet_try_finally quiet_emit quiet_print quiet_new_object quiet_datetime_now
  quiet_backend_sign_up quiet_backend_execute quiet_service_get : quiet.

Ltac quiet :=
  repeat first
    [ progress intros
    | match goal with
      | |- quiet (if ?c then _ else _) => destruct c
      | |- quiet (match ?x with _ => _ end) => destruct x
      | |- _ ≠ _ => discriminate
      end
    | solve [auto 1 with quiet]
    | apply quiet_bind
    | apply quiet_try_except
    | apply quiet_try_finally
    | apply quiet_emit ].

Lemma quiet_create_user user supabase :
  quiet (create_user user supabase : M B D pyval).
Proof.
  unfold create_user, sign_up, execute, py_get, py_get_default, py_getitem.
  quiet.
Qed.

Lemma quiet_get_user user_id supabase :
  quiet (get_user user_id supabase : M B D pyval).
Proof. unfold get_user, execute. quiet. Qed.

Lemma quiet_proxy_ping : quiet (proxy_ping : M B D pyval).
Proof.
  unfold proxy_ping, async_with_client, AsyncClient, aclose, client_get,
    raise_for_status, response_json.
  quiet.
Qed.

Lemma quiet_process_text data :
  quiet (process_text str data : M B D pyval).
Proof. unfold process_text. quiet. Qed.

Lemma quiet_validated {A} (v : list validation_error + A) :
  quiet (validated v : M B D A).
Proof. unfold validated. quiet. Qed.

Lemma steady_footprint (w w' : world) :
  footprint w' = footprint w → steady w → steady w'.
Proof.
  unfold footprint, steady, one_handle, settled, unconfigured.
  intros [= He Hi Hl Hc] [Hone Hset]. rewrite He, Hi, Hl, Hc. done.
Qed.

(** A call of the constructor keeps the invariants, leaves a cached handle
    where it is, and caches the handle it returns. *)
Lemma get_supabase_client_steady (w : world) :
  steady w →
  steady (snd (get_supabase_client w))
  ∧ (∀ h, lru w = Some h → lru (snd (get_supabase_client w)) = Some h)
  ∧ (∀ h w1, get_supabase_client w = (Return h, w1) → lru w1 = Some h).
Proof.
  intros [Hone Hset].
  destruct (get_supabase_client_construction w)
    as [h Hl|Hl Hu|Hl Hu Hi|url key Hl Hu Hi Hurl Hkey Hno
       |url key Hl Hu Hi Hurl Hkey Hyes];
    simpl; (split; [|split]); try done; try congruence.
  - split.
    + unfold one_handle, constructed, created in *. simpl.
      rewrite omap_app. rewrite Hl in Hone. simpl in *. by rewrite Hone.
    + intros h _. done.
  - intros h w1 [= <- <-]. reflexivity.
Qed.

(** A handler that runs after the dependency was solved. *)
Lemma with_supabase_steady (k : handle → M B D pyval) (w : world) :
  (∀ h, quiet (k h)) →
  steady w →
  let w1 := snd (bind get_supabase k w) in
  steady w1 ∧ (∀ h, lru w = Some h → lru w1 = Some h).
Proof.
  intros Hk Hsteady. cbv zeta. unfold bind, get_supabase.
  destruct (get_supabase_client_steady w Hsteady) as (Hsteady1 & Hkeep & _).
  destruct (get_supabase_client w) as [[h|e] w1]; simpl in *; [|done].
  pose proof (Hk h w1) as Hfoot.
  split; [by apply (steady_footprint w1)|].
  intros h' Hl. unfold footprint in Hfoot. injection Hfoot as _ _ -> _.
  by apply Hkeep.
Qed.

Lemma quiet_steady {A} (m : M B D A) (w : world) :
  quiet m → steady w →
  steady (snd (m w)) ∧ (∀ h, lru w = Some h → lru (snd (m w)) = Some h).
Proof.
  intros Hm Hsteady. pose proof (Hm w) as Hfoot.
  split; [by apply (steady_footprint w)|].
  unfold footprint in Hfoot. by injection Hfoot as _ _ -> _.
Qed.

Lemma app_steady r (w : world) :
  steady w →
  steady (snd (app validates_return str r w))
  ∧ (∀ h, lru w = Some h → lru (snd (app validates_return str r w)) = Some h).
Proof.
  intros Hsteady. destruct r; unfold app.
  - rewrite send_world. apply quiet_steady; [apply quiet_ret|done].
  - rewrite send_world. apply quiet_steady; [|done].
    apply quiet_bind; [apply quiet_validated|apply quiet_process_text].
  - rewrite send_world. apply quiet_steady; [apply quiet_proxy_ping|done].
  - rewrite send_world. apply with_supabase_steady; [|done].
    intros h. apply quiet_bind; [apply quiet_validated|].
    intros user. apply quiet_create_user.
  - destruct (routable user_id); [|destruct (String.eqb user_id "")];
      rewrite send_world.
    + apply with_supabase_steady; [|done].
      intros h. apply quiet_get_user.
    + apply quiet_steady; [apply quiet_raise|done].
    + apply quiet_steady; [apply quiet_raise|done].
Qed.

Lemma serve_steady rs (w : world) :
  steady w →
  steady (snd (serve validates_return str rs w))
  ∧ (∀ h, lru w = Some h →
          lru (snd (serve validates_return str rs w)) = Some h).
Proof.
  revert w. induction rs as [|r rs IH]; intros w Hsteady; [done|].
  simpl.
  destruct (app_steady r w Hsteady) as [Hsteady1 Hkeep1].
  destruct (app validates_return str r w) as [resp w1]; simpl in *.
  destruct (IH w1 Hsteady1) as [Hsteady2 Hkeep2].
  destruct (serve validates_return str rs w1) as [resps w2]; simpl in *.
  split; [done|auto].
Qed.

Lemma steady_at_start (w : world) :
  lru w = None → created (trace w) = [] → steady w.
Proof.
  intros Hlru Hnone. split.
  - unfold one_handle. by rewrite Hlru.
  - intros h. congruence.
Qed.

(** C6, as the code has it: at any point of a process that started without
    a handle, a call of the constructor fails with the configuration
    message when either variable is unset or empty, and, when both are set,
    with the dependency message when [supabase] cannot be imported; either
    way the world is as before (no client created, nothing cached), and the
    two messages differ. *)
Theorem construction_failures (w0 : world) rs :
  lru w0 = None →
  created (trace w0) = [] →
  let w := snd (serve validates_return str rs w0) in
  (unconfigured w = true →
   get_supabase_client w = (Raise (RuntimeError config_error_message), w))
  ∧ (unconfigured w = false → supabase_installed w = false →
     get_supabase_client w
     = (Raise (RuntimeError dependency_error_message), w))
  ∧ config_error_message ≠ dependency_error_message.
Proof.
  intros Hlru Hnone. cbv zeta.
  destruct (serve_steady rs w0 (steady_at_start w0 Hlru Hnone))
    as [[_ Hset] _].
  set (w := snd (serve validates_return str rs w0)) in *.
  pose proof (get_supabase_client_construction w) as Hc.
  split; [|split].
  - intros Hun. inversion Hc as [h Hl| | | |]; try congruence.
    destruct (Hset h Hl). congruence.
  - intros Hconf Hlib. inversion Hc as [h Hl| | | |]; try congruence.
    destruct (Hset h Hl). congruence.
  - discriminate.
Qed.

(** A call that runs alone goes through its three steps as the decorated
    function does. *)
Lemma interleave_alone (w : world) :
  interleave validates_return str [Advance 0; Advance 0; Advance 0]
    [Entered] w
  = ([Finished (fst (get_supabase_client w))], snd (get_supabase_client w)).
Proof.
  unfold get_supabase_client, lru_cache.
  assert (lru (snd (get_supabase_client_body w)) = lru w) as Hbody.
  { unfold get_supabase_client_body, import_supabase, create_client. run.
    destruct (not_str _ || not_str _); [done|].
    destruct (supabase_installed w); simpl; [|done].
    by destruct (client_accepts w _ _). }
  simpl.
  destruct (lru w) as [h|] eqn:Hlru; simpl; [reflexivity|].
  destruct (get_supabase_client_body w) as [[h|e] w1]; simpl in *;
    [|reflexivity].
  by rewrite Hbody.
Qed.



End Properties.

(** * The properties on the test doubles *)

Lemma ticking_runs_forward env installed b d :
  clock_runs_forward (fresh_world env installed b d).
Proof.
  intros n. unfold datetime_le, timetuple, fresh_world, ticking. simpl wall.
  cbn -[Nat.ltb].
  assert ((n <? S n)%nat = true) as -> by (apply Nat.ltb_lt; lia).
  reflexivity.
Qed.







(** The backend answers with neither [error] nor [user]: [TypeError]. *)
Lemma create_user_without_user_witness :
  let w := fresh_world configured true (backend_replying blank None) pong in
  truthy (default PNone (blank !! "error")) = false
  ∧ default PNone (blank !! "user") = PNone
  ∧ ∃ e, create_user alice client0 w
         = (Raise e, after [EvSignUp (credentials alice)] (backend w) w)
         ∧ unhandled e.
Proof.
  intros w. split; [reflexivity|]. split; [reflexivity|].
  destruct (create_user_without_user true alice client0 w blank (backend w))
    as (e & Hrun & _ & Hun & _);
    [reflexivity | reflexivity | left; reflexivity |].
  exists e. split; [exact Hrun | exact Hun].
Defined.



(** A password of seven characters in eight bytes, with the backend
    configured: 422 on [body.password], no backend call. *)
Lemma short_password_rejected_witness :
  let w := fresh_world configured true (backend_replying signed_up None) pong in
  let answer := app true str_stub (PostUsers umlaut_password_payload) w in
  (py_len "passwör" < 8)%nat
  ∧ String.length "passwör" = 8%nat
  ∧ filter is_backend_call (trace (snd answer)) = []
  ∧ ∃ errors,
      fst answer = {| status := 422; body := ValidationErrors errors |}
      ∧ (["body"; "password"], PStr "passwör") ∈ errors.
Proof.
  intros w answer.
  assert (py_len "passwör" < 8)%nat as Hlen by (vm_compute; lia).
  split; [exact Hlen|]. split; [reflexivity|].
  destruct (short_password_rejected true str_stub w
              {[ "email" := PStr "alice@example.com";
                 "password" := PStr "passwör" ]} "passwör")
    as (Hquiet & Hok & _); [reflexivity | exact Hlen |].
  split; [exact Hquiet|].
  destruct (Hok client0 (snd (get_supabase w))) as (errors & Hanswer & Hin);
    [reflexivity ..|].
  exists errors. split; [|exact Hin].
  unfold answer, umlaut_password_payload. by rewrite Hanswer.
Defined.

(** A short password with nothing configured: the request gets a 500. *)
Lemma short_password_unconfigured :
  let w := fresh_world ∅ true (backend_replying signed_up None) pong in
  let answer := fst (app true str_stub (PostUsers short_password_payload) w) in
  str_field short_password_payload "password" = Some "short"
  ∧ (py_len "short" < 8)%nat
  ∧ status answer = 500
  ∧ ¬ (400 ≤ status answer ≤ 499).
Proof.
  intros w answer.
  assert (status answer = 500) as Hstatus by reflexivity.
  split; [reflexivity|]. split; [vm_compute; lia|].
  split; [exact Hstatus|]. rewrite Hstatus. lia.
Qed.

(** Nothing configured, after two requests: the configuration message,
    and the world untouched. *)
Lemma construction_failures_witness :
  let w0 := fresh_world ∅ true (backend_replying blank None) pong in
  let w := snd (serve true str_stub [GetRoot; GetUser "a"] w0) in
  lru w0 = None
  ∧ created (trace w0) = []
  ∧ unconfigured w = true
  ∧ get_supabase_client w = (Raise (RuntimeError config_error_message), w).
Proof.
  intros w0 w. split; [reflexivity|]. split; [reflexivity|].
  split; [reflexivity|].
  destruct (construction_failures true str_stub w0 [GetRoot; GetUser "a"])
    as [Hconfig _]; [reflexivity ..|].
  apply Hconfig. reflexivity.
Defined.

(** Nothing configured and no [supabase] to import: the failure reported is
    the configuration one, not the dependency one. *)
Lemma missing_library_unconfigured :
  let w := fresh_world ∅ false (backend_replying blank None) pong in
  supabase_installed w = false
  ∧ fst (get_supabase_client w) = Raise (RuntimeError config_error_message)
  ∧ fst (get_supabase_client w)
    ≠ Raise (RuntimeError dependency_error_message).
Proof.
  intros w.
  assert (fst (get_supabase_client w)
          = Raise (RuntimeError config_error_message)) as Hraised
    by reflexivity.
  split; [reflexivity|]. split; [exact Hraised|].
  rewrite Hraised. discriminate.
Qed.



(** A text payload at noon: echoed, and stamped with the second reading of
    the clock, two microseconds after noon. *)
Lemma process_text_acknowledges_witness :
  let w := fresh_world ∅ false (backend_replying blank None) pong in
  let answer := app true str_stub (PostProcessText text_payload) w in
  str_field text_payload "text" = Some "hello"
  ∧ fst answer
    = {| status := 200;
         body := JSON (PDict {[
           "status" := PStr "success";
           "message" := PStr "데이터가 성공적으로 처리되었습니다";
           "received_text" := PStr "hello";
           "processed_at" := PStr "2024-05-17T12:00:00.000002" ]}) |}
  ∧ datetime_le (current_time w) (ticking 2) = true.
Proof.
  intros w answer. split; [reflexivity|].
  destruct (process_text_acknowledges true str_stub w text_payload
              "hello" "2024-05-17T11:59:59" "form")
    as (Hanswer & _ & _ & _ & _ & _ & Hle); [reflexivity ..|].
  split; [exact Hanswer|].
  apply Hle. apply ticking_runs_forward.
Defined.

(** A text that is one lone surrogate cannot be printed on a UTF-8
    console: the handler's own [except] turns that into a 500, and nothing
    is acknowledged.  And on a clock that is set back while the handler
    runs, [processed_at] is earlier than the arrival. *)
Lemma process_text_not_acknowledged :
  let w := fresh_world ∅ false (backend_replying blank None) pong in
  let answer := app true str_stub (PostProcessText surrogate_payload) w in
  let late := app true str_stub (PostProcessText text_payload)
                world_set_back in
  str_field surrogate_payload "text" = Some lone_surrogate
  ∧ str_field surrogate_payload "timestamp" = Some "2024-05-17T11:59:59"
  ∧ str_field surrogate_payload "source" = Some "form"
  ∧ fst answer
    = {| status := 500;
         body := JSON (PDict {[ "detail" :=
                   PStr "데이터 처리 중 오류가 발생했습니다: error" ]}) |}
  ∧ fst late
    = {| status := 200;
         body := JSON (PDict (acknowledgement "hello" (ticking 0))) |}
  ∧ current_time world_set_back = ticking 5
  ∧ datetime_le (current_time world_set_back) (ticking 0) = false.
Proof. repeat split; vm_compute; reflexivity. Qed.

(** * Further properties of the handlers *)

Section Further.
Context {B D : Type} `{!Backend B} `{!Service D}.
Variable validates_return : bool.
Variable str : exn → string.

Abbreviation world := (world B D).

Ltac run :=
  unfold try_except, try_finally, bind, emit, new_object, getenv,
    datetime_now, ret, raise;
  simpl.

Ltac same_world :=
  unfold set_service, set_backend, set_trace, set_lru, set_next_id, set_tick;
  simpl; rewrite <- ?app_assoc; reflexivity.

(** ** The process as a sequence of requests *)

Lemma serve_cons r rs (w : world) :
  serve validates_return str (r :: rs) w
  = (fst (app validates_return str r w)
     :: fst (serve validates_return str rs
               (snd (app validates_return str r w))),
     snd (serve validates_return str rs
            (snd (app validates_return str r w)))).
Proof.
  cbn [serve]. destruct (app validates_return str r w) as [resp w1].
  cbn [fst snd]. destruct (serve validates_return str rs w1). reflexivity.
Qed.

Lemma serve_app rs1 rs2 (w : world) :
  serve validates_return str (rs1 ++ rs2) w
  = ((fst (serve validates_return str rs1 w)
      ++ fst (serve validates_return str rs2
                (snd (serve validates_return str rs1 w))))%list,
     snd (serve validates_return str rs2
            (snd (serve validates_return str rs1 w)))).
Proof.
  revert w. induction rs1 as [|r rs1 IH]; intros w.
  - rewrite app_nil_l. cbn [serve fst snd].
    by destruct (serve validates_return str rs2 w).
  - rewrite <- app_comm_cons, !serve_cons, IH. reflexivity.
Qed.

(** X1: [GET /] answers 200 with [{"message": "Gateway is working"}] in
    every state of the process, configured or not, and changes nothing; so
    a health check put anywhere among other requests changes neither their
    answers nor the state they leave. *)
Theorem read_root_stateless (w : world) rs1 rs2 :
  app validates_return str GetRoot w = (root_answer, w)
  ∧ fst (serve validates_return str (rs1 ++ GetRoot :: rs2) w)
    = (fst (serve validates_return str rs1 w)
       ++ root_answer
       :: fst (serve validates_return str rs2
                 (snd (serve validates_return str rs1 w))))%list
  ∧ snd (serve validates_return str (rs1 ++ GetRoot :: rs2) w)
    = snd (serve validates_return str (rs1 ++ rs2) w).
Proof.
  assert (∀ w0 : world,
            app validates_return str GetRoot w0 = (root_answer, w0)) as Hroot.
  { intros w0. unfold app, send, read_root, ret.
    by destruct validates_return. }
  split; [apply Hroot|].
  rewrite !serve_app, serve_cons, Hroot. done.
Qed.

(** ** The backend client factory *)

Lemma get_supabase_client_fills (w : world) url key :
  lru w = None →
  environ w !! "SUPABASE_URL" = Some url →
  environ w !! "SUPABASE_ANON_KEY" = Some key →
  url ≠ "" → key ≠ "" →
  supabase_installed w = true →
  client_accepts w url key = true →
  get_supabase_client w
  = (Return (Handle (next_id w) url key),
     constructed (Handle (next_id w) url key) w).
Proof.
  intros Hlru Hurl Hkey Hu Hk Hlib Hclient.
  assert (unconfigured w = false) as Hconf.
  { unfold unconfigured. rewrite Hurl, Hkey. simpl.
    apply orb_false_intro; by apply String.eqb_neq. }
  destruct (get_supabase_client_construction w)
    as [h Hl|Hl Hun|Hl Hun Hi|url' key' Hl Hun Hi Hurl' Hkey' Hno
       |url' key' Hl Hun Hi Hurl' Hkey' Hyes];
    congruence.
Qed.

(** X2: with no handle cached, both variables set to non-empty strings,
    [supabase] importable and the two values to the liking of
    [create_client], the constructor returns a new client made from exactly
    the two values of the environment, records it as created, and keeps it
    in the cache; nothing else changes.  When [create_client] refuses them
    (a URL that is none, say) its exception gets out, the world stays as it
    was, and the next call tries again. *)
Theorem construction_succeeds (w : world) url key :
  lru w = None →
  environ w !! "SUPABASE_URL" = Some url →
  environ w !! "SUPABASE_ANON_KEY" = Some key →
  url ≠ "" → key ≠ "" →
  supabase_installed w = true →
  let h := Handle (next_id w) url key in
  if client_accepts w url key then
    get_supabase_client w = (Return h, constructed h w)
    ∧ lru (constructed h w) = Some h
    ∧ created (trace (constructed h w)) = (created (trace w) ++ [h])%list
  else
    get_supabase_client w = (Raise SupabaseException, w).
Proof.
  intros Hlru Hurl Hkey Hu Hk Hlib. cbv zeta.
  destruct (client_accepts w url key) eqn:Hclient.
  - split; [|split].
    + by apply get_supabase_client_fills.
    + reflexivity.
    + unfold constructed, created. simpl. by rewrite omap_app.
  - assert (unconfigured w = false) as Hconf.
    { unfold unconfigured. rewrite Hurl, Hkey. simpl.
      apply orb_false_intro; by apply String.eqb_neq. }
    destruct (get_supabase_client_construction w)
      as [h Hl|Hl Hun|Hl Hun Hi|url' key' Hl Hun Hi Hurl' Hkey' Hno
         |url' key' Hl Hun Hi Hurl' Hkey' Hyes];
      congruence.
Qed.

(** X3: a call of the constructor that raises has found the cache empty,
    raises [RuntimeError] with one of the two messages or the exception of
    [create_client] and nothing else (the [ImportError] itself never gets
    out), and leaves the world as it was: a failure is not cached, and the
    next call runs the body again and fails the same way. *)
Theorem construction_failure_not_cached (w : world) e w1 :
  get_supabase_client w = (Raise e, w1) →
  w1 = w
  ∧ lru w1 = None
  ∧ (e = RuntimeError config_error_message
     ∨ e = RuntimeError dependency_error_message
     ∨ e = SupabaseException)
  ∧ get_supabase_client w1 = (Raise e, w1).
Proof.
  intros Hrun.
  pose proof (get_supabase_client_construction w) as Hc.
  rewrite Hrun in Hc.
  inversion Hc; subst; auto 6.
Qed.

(** ** The user service *)

(** X4: whatever the backend answers, [create_user] signs up first and
    exactly once, with the email and password of the request; it either
    returns [{id, email}] after inserting that very row into [users], or
    raises with nothing inserted; it runs no other query, and the only
    exceptions it lets out are the 400, [AttributeError], [TypeError] and
    [KeyError] for [id] or [email]. *)
Theorem create_user_calls user supabase (w : world) :
  let run := create_user user supabase w in
  (∃ i m,
     fst run = Return (PDict (id_email i m))
     ∧ trace (snd run)
       = (trace w ++ [EvSignUp (credentials user);
                      EvExecute (QInsert "users" (id_email i m))])%list)
  ∨ (∃ e,
       fst run = Raise e
       ∧ trace (snd run) = (trace w ++ [EvSignUp (credentials user)])%list
       ∧ ((∃ detail, e = HTTPException 400 detail)
          ∨ e = AttributeError ∨ e = TypeError
          ∨ e = KeyError "id" ∨ e = KeyError "email")).
Proof.
  cbv zeta.
  unfold create_user, sign_up, execute, py_get, py_get_default, py_getitem,
    table, insert, http_exception.
  fold (credentials user). run.
  destruct (backend_sign_up (credentials user) (backend w)) as [result b1].
  destruct result as [| | | | |l|r]; simpl;
    try (right; eexists; split; [reflexivity|]; split; [reflexivity|];
         auto 6).
  destruct (truthy (default PNone (r !! "error"))) eqn:Herr; simpl.
  { right.
    destruct (default PNone (r !! "error")) as [| | | | |l|e]; simpl;
      eexists; (split; [reflexivity|]); (split; [reflexivity|]); eauto 6. }
  destruct (default PNone (r !! "user")) as [| | | | |l|u]; simpl;
    try (right; eexists; split; [reflexivity|]; split; [reflexivity|];
         auto 6).
  destruct (u !! "id") as [i|]; simpl;
    [|right; eexists; split; [reflexivity|]; split; [reflexivity|]; auto 6].
  destruct (u !! "email") as [m|]; simpl;
    [|right; eexists; split; [reflexivity|]; split; [reflexivity|]; auto 6].
  fold (id_email i m).
  destruct (backend_execute _ b1) as [qr b2]. simpl.
  left. exists i, m. split; [reflexivity|]. by rewrite <- app_assoc.
Qed.

(** X5: an [error] entry that is truthy but not a dictionary (a string,
    say) has no [get]: [create_user] raises [AttributeError] after the
    sign-up, the route answers 500 instead of 400, and nothing is
    inserted.  The same happens when the sign-up result itself is not a
    dictionary. *)
Theorem create_user_error_not_a_dict user supabase (w : world) result b1 :
  backend_sign_up (credentials user) (backend w) = (result, b1) →
  (is_dict result = false
   ∨ ∃ r e, result = PDict r ∧ r !! "error" = Some e
            ∧ truthy e = true ∧ is_dict e = false) →
  create_user user supabase w
  = (Raise AttributeError, after [EvSignUp (credentials user)] b1 w)
  ∧ respond validates_return is_dict 201 (create_user user supabase) w
    = (internal_server_error, after [EvSignUp (credentials user)] b1 w).
Proof.
  intros Hsign Hcase.
  assert (create_user user supabase w
          = (Raise AttributeError, after [EvSignUp (credentials user)] b1 w))
    as Hrun.
  { unfold create_user, sign_up, py_get, py_get_default, after.
    fold (credentials user). run. rewrite Hsign. simpl.
    destruct Hcase as [Hnot | (r & e & -> & He & Htrue & Hnot)].
    - by destruct result.
    - simpl. rewrite He. simpl. rewrite Htrue. simpl.
      by destruct e. }
  split; [exact Hrun|].
  by rewrite (respond_raised _ _ _ _ _ _ _ Hrun).
Qed.


(** ** Which route touches which collaborator *)

Section Keeps.
Context {X : Type} (f : world → X).

Lemma keeps_ret {A} (a : A) : keeps f (ret a : M B D A).
Proof. by intros w. Qed.

Lemma keeps_raise {A} e : keeps f (raise e : M B D A).
Proof. by intros w. Qed.

Lemma keeps_bind {A C} (m : M B D A) (k : A → M B D C) :
  keeps f m → (∀ a, keeps f (k a)) → keeps f (bind m k).
Proof.
  intros Hm Hk w. unfold bind. specialize (Hm w).
  destruct (m w) as [[a|e] w1]; simpl in *; [|done].
  by rewrite (Hk a w1).
Qed.

Lemma keeps_try_except {A} (m : M B D A) h :
  keeps f m → (∀ e, keeps f (h e)) → keeps f (try_except m h).
Proof.
  intros Hm Hh w. unfold try_except. specialize (Hm w).
  destruct (m w) as [[a|e] w1]; simpl in *; [done|].
  by rewrite (Hh e w1).
Qed.

Lemma keeps_try_finally {A} (m : M B D A) g :
  keeps f m → keeps f g → keeps f (try_finally m g).
Proof.
  intros Hm Hg w. unfold try_finally. specialize (Hm w).
  destruct (m w) as [r w1]; simpl in *. specialize (Hg w1).
  destruct (g w1) as [[[]|e] w2]; simpl in *; congruence.
Qed.

Lemma keeps_print line :
  keeps f (emit (EvPrint line) : M B D unit) →
  keeps f (print line : M B D unit).
Proof.
  intros Hemit w. unfold print.
  destruct (stdout_accepts w line); [apply Hemit|reflexivity].
Qed.

Lemma keeps_send annotation code (m : M B D pyval) (w : world) :
  keeps f m →
  f (snd (send validates_return annotation code m w)) = f w.
Proof. intros Hm. rewrite send_world. apply Hm. Qed.

End Keeps.

Lemma backend_side_emit e :
  is_backend_call e = false → keeps backend_side (emit e : M B D unit).
Proof.
  intros He w. unfold emit, backend_side. simpl. f_equal.
  rewrite filter_app. destruct e; try discriminate; apply app_nil_r.
Qed.

Lemma backend_side_service_get url :
  keeps backend_side
    (fun w : world => let '(t, d) := service_get url (service w) in
                      match t with
                      | Responded r => (Return r, set_service d w)
                      | Unreachable => (Raise ConnectError, set_service d w)
                      end).
Proof. intros w. by destruct (service_get url (service w)) as [[r|] d]. Qed.

Lemma downstream_side_emit e :
  is_get e = false → keeps downstream_side (emit e : M B D unit).
Proof.
  intros He w. unfold emit, downstream_side, gets. simpl. f_equal.
  rewrite omap_app. simpl. destruct e; try apply app_nil_r. discriminate.
Qed.

Lemma downstream_side_sign_up c :
  keeps downstream_side
    (fun w : world => let '(r, b) := backend_sign_up c (backend w) in
                      (Return r, set_backend b w)).
Proof. intros w. by destruct (backend_sign_up c (backend w)). Qed.

Lemma downstream_side_execute q :
  keeps downstream_side
    (fun w : world => let '(r, b) := backend_execute q (backend w) in
                      (Return r, set_backend b w)).
Proof. intros w. by destruct (backend_execute q (backend w)). Qed.

Lemma downstream_side_get_supabase :
  keeps downstream_side (get_supabase : M B D handle).
Proof.
  intros w. unfold get_supabase.
  destruct (get_supabase_client_construction w); try reflexivity.
  unfold constructed, downstream_side, gets. simpl. f_equal.
  rewrite omap_app. apply app_nil_r.
Qed.

Ltac keeps :=
  repeat first
    [ progress intros
    | match goal with
      | |- keeps _ (if ?c then _ else _) => destruct c
      | |- keeps _ (match ?x with _ => _ end) => destruct x
      end
    | apply keeps_ret
    | apply keeps_raise
    | apply backend_side_service_get
    | apply downstream_side_sign_up
    | apply downstream_side_execute
    | apply downstream_side_get_supabase
    | apply keeps_bind
    | apply keeps_try_except
    | apply keeps_try_finally
    | apply keeps_print
    | apply backend_side_emit; reflexivity
    | apply downstream_side_emit; reflexivity
    | by intros ? ].

(** The factory fails in [w]: a variable is missing, or [supabase] cannot
    be imported, or [create_client] refuses the two values. *)
Lemma get_supabase_fails (w : world) :
  lru w = None →
  unconfigured w = true ∨ supabase_installed w = false
  ∨ (∀ url key, environ w !! "SUPABASE_URL" = Some url →
                environ w !! "SUPABASE_ANON_KEY" = Some key →
                client_accepts w url key = false) →
  ∃ e, get_supabase w = (Raise e, w)
       ∧ ((∃ msg, e = RuntimeError msg) ∨ e = SupabaseException).
Proof.
  intros Hlru Hbroken. unfold get_supabase.
  destruct (get_supabase_client_construction w)
    as [h Hl|Hl Hun|Hl Hun Hi|url key Hl Hun Hi Hurl Hkey Hno
       |url key Hl Hun Hi Hurl Hkey Hyes];
    eauto; try congruence.
  destruct Hbroken as [? | [? | Hrefuses]]; try congruence.
  specialize (Hrefuses url key Hurl Hkey). congruence.
Qed.

(** X7: in a process without a handle where a variable is missing, or
    [supabase] cannot be imported, or [create_client] refuses the
    configuration, every request that one of the two routes of the user
    service takes, whatever its body or id, is answered 500, and the
    world stays as it was: the backend is not called, and the failure
    repeats on every later request.  A GET of [/users/] itself is taken by
    no route: it is answered 405 whatever the state of the process, and
    does not need the handle. *)
Theorem users_routes_need_handle (w : world) rs :
  lru w = None →
  unconfigured w = true ∨ supabase_installed w = false
  ∨ (∀ url key, environ w !! "SUPABASE_URL" = Some url →
                environ w !! "SUPABASE_ANON_KEY" = Some key →
                client_accepts w url key = false) →
  Forall (fun r => reaches_users_route r = true) rs →
  serve validates_return str rs w
  = (replicate (length rs) internal_server_error, w)
  ∧ app validates_return str (GetUser "") w
    = ({| status := 405;
          body := JSON (PDict {[ "detail" := PStr "Method Not Allowed" ]}) |},
       w).
Proof.
  intros Hlru Hbroken Hrs. split; [|reflexivity].
  destruct (get_supabase_fails w Hlru Hbroken) as (e & Hget & He).
  induction Hrs as [|r rs Hr _ IH]; [reflexivity|].
  rewrite serve_cons.
  assert (app validates_return str r w = (internal_server_error, w)) as ->.
  { destruct r; try discriminate; unfold app; simpl in Hr; rewrite ?Hr;
      unfold send, bind; rewrite Hget;
      by destruct He as [[msg ->] | ->]. }
  simpl. by rewrite IH.
Qed.

(** X8: the root, text and ping routes do not depend on Supabase: they
    leave the backend, the calls it received, the environment, the cache
    and the clients created exactly as they were, in a configured process
    or not. *)
Theorem other_routes_leave_backend_alone r (w : world) :
  is_users_request r = false →
  backend_side (snd (app validates_return str r w)) = backend_side w
  ∧ footprint (snd (app validates_return str r w)) = footprint w.
Proof.
  intros Hr. destruct r; try discriminate; unfold app.
  - split; apply keeps_send; by intros ?.
  - split; apply keeps_send.
    + unfold validated, process_text, datetime_now. keeps.
    + apply quiet_bind; [apply quiet_validated|apply quiet_process_text].
  - split; apply keeps_send.
    + unfold proxy_ping, async_with_client, AsyncClient, aclose, client_get,
        raise_for_status, response_json, new_object.
      keeps.
    + apply quiet_proxy_ping.
Qed.

(** X9: the downstream service is contacted by the ping route only, once
    per request and always at [http://service:8000/ping]: after any
    sequence of requests the GETs made are as many as the pings served,
    nothing is retried, cached or skipped, and no other route changes the
    service. *)
Theorem one_get_per_ping rs (w : world) :
  gets (trace (snd (serve validates_return str rs w)))
  = (gets (trace w) ++ replicate (length (filter is_ping rs)) ping_url)%list
  ∧ (∀ r, is_ping r = false →
          downstream_side (snd (app validates_return str r w))
          = downstream_side w).
Proof.
  assert (∀ r (w0 : world), is_ping r = false →
            downstream_side (snd (app validates_return str r w0))
            = downstream_side w0) as Hother.
  { intros r w0 Hr. destruct r; try discriminate; unfold app.
    - apply keeps_send. by intros ?.
    - apply keeps_send. unfold validated, process_text, datetime_now. keeps.
    - apply keeps_send.
      unfold validated, create_user, sign_up, execute, py_get,
        py_get_default, py_getitem.
      keeps.
    - destruct (routable user_id); [|destruct (String.eqb user_id "")];
        apply keeps_send.
      + unfold get_user, execute. keeps.
      + by intros ?.
      + by intros ?. }
  split; [|intros r Hr; by apply Hother].
  revert w. induction rs as [|r rs IH]; intros w.
  { simpl. by rewrite app_nil_r. }
  rewrite serve_cons. cbn [snd]. rewrite IH.
  destruct (is_ping r) eqn:Hr.
  - destruct r; try discriminate. unfold app.
    rewrite send_world, (proxy_ping_run w). cbn [snd].
    rewrite filter_cons_True by done. cbn [length replicate].
    unfold gets. cbn [trace set_service set_trace set_next_id].
    rewrite omap_app. cbn [omap list_omap]. by rewrite <- app_assoc.
  - specialize (Hother r w Hr). unfold downstream_side in Hother.
    injection Hother as _ ->.
    rewrite filter_cons_False; [done|].
    intros Hping. rewrite Hr in Hping. exact Hping.
Qed.

(** X11: the first request to the user service in a configured process
    constructs the client, then signs up, then inserts, in that order, and
    answers 201 with [{id, email}], for an [id] and an [email] of proper
    text and finite numbers; the handle stays in the cache. *)
Theorem first_sign_up (w : world) payload user url key r b1 u i m :
  lru w = None →
  environ w !! "SUPABASE_URL" = Some url →
  environ w !! "SUPABASE_ANON_KEY" = Some key →
  url ≠ "" → key ≠ "" →
  supabase_installed w = true →
  client_accepts w url key = true →
  validate_UserCreate payload = inr user →
  backend_sign_up (credentials user) (backend w) = (PDict r, b1) →
  truthy (default PNone (r !! "error")) = false →
  r !! "user" = Some (PDict u) →
  u !! "id" = Some i →
  u !! "email" = Some m →
  encodes (PDict (id_email i m)) = true →
  finite (PDict (id_email i m)) = true →
  let h := Handle (next_id w) url key in
  let answer := app validates_return str (PostUsers payload) w in
  fst answer = {| status := 201; body := JSON (PDict (id_email i m)) |}
  ∧ trace (snd answer)
    = (trace w ++ [EvCreateClient h; EvSignUp (credentials user);
                   EvExecute (QInsert "users" (id_email i m))])%list
  ∧ lru (snd answer) = Some h.
Proof.
  intros Hlru Hurl Hkey Hu Hk Hlib Hclient Hval Hsign Herr Huser Hid Hmail
    Henc Hfin.
  cbv zeta.
  pose proof (get_supabase_client_fills w url key Hlru Hurl Hkey Hu Hk Hlib
                Hclient) as Hget.
  rewrite (post_users_valid validates_return str w payload user _ _ Hget Hval).
  pose proof (create_user_signed_up user (Handle (next_id w) url key)
                (constructed (Handle (next_id w) url key) w) r b1 u i m
                Hsign Herr Huser Hid Hmail) as Hrun.
  rewrite send_respond;
    rewrite (respond_dict validates_return 201 _ _ _ _ Hrun).
  - split; [reflexivity|]. split; [|reflexivity].
    unfold after, constructed. simpl. by rewrite <- app_assoc.
  - unfold renders. cbn [fst body]. by rewrite Henc, Hfin.
Qed.

(** ** Text ingestion *)

(** X12: on a console that takes them, [process_text] prints seven lines,
    among them the text, the timestamp and the source as they were sent,
    reads the clock twice, and changes nothing else; the time it prints is
    the first reading, the [processed_at] it returns is the second, and of
    the three fields only the text comes back.  When the console takes the
    first two lines and refuses the third, with the text, the handler
    prints the error and raises the 500, with the error in the detail; the
    clock is not read. *)
Theorem process_text_logs data (w : world) :
  let logged := wall w (1 + tick w)%nat in
  let returned := wall w (2 + tick w)%nat in
  let oops := str UnicodeEncodeError in
  (printable w (log_lines data logged) = true →
   process_text str data w
   = (Return (PDict (acknowledgement (text data) returned)),
      set_tick (2 + tick w)
        (set_trace (trace w ++ log_lines data logged) w)))
  ∧ (printable w (take 2 (log_lines data logged)) = true →
     stdout_accepts w ("📄 텍스트: " +:+ text data) = false →
     stdout_accepts w ("❌ 오류 발생: " +:+ oops) = true →
     process_text str data w
     = (Raise (HTTPException 500
                 (PStr ("데이터 처리 중 오류가 발생했습니다: " +:+ oops))),
        set_tick (tick w)
          (set_trace (trace w ++ take 2 (log_lines data logged)
                              ++ [EvPrint ("❌ 오류 발생: " +:+ oops)]) w))).
Proof.
  cbv zeta. split; [apply process_text_run|].
  unfold printable, log_lines. cbn [take forallb].
  rewrite !andb_true_iff. intros (H1 & H2 & _) H3 Hoops.
  unfold process_text, try_except.
  rewrite (print_first _ _ _ H1), (print_next _ _ _ _ _ H2),
    (print_refused _ _ _ _ _ H3), (print_next _ _ _ _ _ Hoops).
  unfold raise, http_exception. rewrite <- !app_assoc. reflexivity.
Qed.

(** X13: a [POST /process-text] body that is a JSON object of proper text
    and finite numbers in which [text], [timestamp] or [source] is missing
    or is not a string is answered 422 with an error at that field; a body
    that is no JSON object is answered 422 with one error, at the body
    itself.  The handler is not called: nothing is printed, the clock is
    not read, the world stays as it was. *)
Theorem process_text_rejects payload (w : world) :
  encodes payload = true →
  finite payload = true →
  (∀ d name, payload = PDict d →
     name ∈ ["text"; "timestamp"; "source"] →
     str_field payload name = None →
     ∃ errors,
       app validates_return str (PostProcessText payload) w
       = ({| status := 422; body := ValidationErrors errors |}, w)
       ∧ (["body"; name], default payload (d !! name)) ∈ errors)
  ∧ (is_dict payload = false →
     app validates_return str (PostProcessText payload) w
     = ({| status := 422; body := ValidationErrors [(["body"], payload)] |},
        w)).
Proof.
  intros Henc Hfin. split.
  - intros d name -> Hname Hnone.
    assert (field_error d name ∈ str_errors d name) as Hin.
    { unfold str_errors. unfold str_field in Hnone.
      destruct (d !! name) as [[]|]; try discriminate; constructor. }
    assert (∃ errors, validate_TextData (PDict d) = inl errors
                      ∧ errors = (str_errors d "text"
                                  ++ str_errors d "timestamp"
                                  ++ str_errors d "source")%list)
      as (errors & Hval & Herrors).
    { unfold validate_TextData.
      destruct (str_errors d "text" ++ _)%list as [|x xs] eqn:Hall; [|eauto].
      apply app_eq_nil in Hall as [Ht [Hts Hsrc]%app_eq_nil].
      set_unfold in Hname.
      destruct Hname as [-> | [-> | [-> | []]]];
        rewrite ?Ht, ?Hts, ?Hsrc in Hin; by apply elem_of_nil in Hin. }
    exists errors. split.
    + unfold app, send, bind, validated. rewrite Hval. unfold raise.
      assert (forallb (fun e => encodes (snd e) && finite (snd e)) errors
              = true) as ->; [|reflexivity].
      rewrite Herrors, !forallb_app, !str_errors_render; done.
    + rewrite Herrors. change (_, default _ _) with (field_error d name).
      set_unfold in Hname. set_unfold.
      destruct Hname as [-> | [-> | [-> | []]]]; auto.
  - intros Hnot. unfold app, send, bind, validated, validate_TextData.
    destruct payload; try discriminate; unfold raise; cbn [forallb snd];
      by rewrite Henc, Hfin.
Qed.

(** ** The reverse proxy *)

(** X14: [GET /service/ping] answers 200 or 500 and nothing else: the 200
    only with the JSON body of a 2xx response, as it is or, where the
    annotation is checked, with its numbers that are not finite sent as
    [null]; an unreachable service ([ConnectError]), a 2xx response whose
    body is not JSON ([JSONDecodeError]) and every other status code give
    the bare 500, so the status code of downstream is never passed on. *)
Theorem proxy_ping_answers (w : world) :
  let result := fst (service_get ping_url (service w)) in
  let answer := fst (app validates_return str GetServicePing w) in
  (answer = internal_server_error
   ∨ ∃ r j, result = Responded r ∧ is_success r = true
            ∧ json_body r = Some j
            ∧ answer = {| status := 200;
                          body := JSON (if validates_return then nulled j
                                        else j) |})
  ∧ (result = Unreachable → fst (proxy_ping w) = Raise ConnectError)
  ∧ (∀ r, result = Responded r → is_success r = true →
          json_body r = None → fst (proxy_ping w) = Raise JSONDecodeError).
Proof.
  cbv zeta. pose proof (proxy_ping_run w) as Hrun. cbv zeta in Hrun.
  unfold app.
  destruct (fst (service_get ping_url (service w))) as [r|] eqn:Hres.
  - destruct (is_success r) eqn:Hok.
    + destruct (json_body r) as [j|] eqn:Hjson.
      * rewrite (send_returned _ _ _ _ _ _ Hrun), Hrun. cbn [fst].
        split; [|split; [discriminate|]].
        -- destruct validates_return.
           ++ destruct (is_dict j && encodes j); [right|by left].
              by exists r, j.
           ++ destruct (encodes j && finite j); [right|by left].
              by exists r, j.
        -- intros r' [= <-]. congruence.
      * rewrite (send_raised _ _ _ _ _ _ _ Hrun), Hrun. cbn [fst].
        split; [by left|]. split; [discriminate|done].
    + rewrite (send_raised _ _ _ _ _ _ _ Hrun), Hrun. cbn [fst].
      split; [by left|]. split; [discriminate|].
      intros r' [= <-]. congruence.
  - rewrite (send_raised _ _ _ _ _ _ _ Hrun), Hrun. cbn [fst].
    split; [by left|]. split; [done|discriminate].
Qed.

End Further.

(** * The further properties on the test doubles *)

(** A configured process: the first call makes client 0 from the two
    variables; with a URL that is none, the call lets the library's
    exception out and leaves the process as it was. *)
Lemma construction_succeeds_witness :
  let w := fresh_world configured true (backend_replying blank None) pong in
  let w' := fresh_world misconfigured true (backend_replying blank None)
              pong in
  lru w = None
  ∧ supabase_installed w = true
  ∧ get_supabase_client w = (Return client0, constructed client0 w)
  ∧ created (trace (constructed client0 w)) = [client0]
  ∧ get_supabase_client w' = (Raise SupabaseException, w').
Proof.
  intros w w'. split; [reflexivity|]. split; [reflexivity|].
  pose proof (construction_succeeds w "https://example.supabase.co"
                "anon-key") as Hok.
  destruct Hok as (Hrun & _ & Hcreated);
    [reflexivity | reflexivity | reflexivity | discriminate | discriminate
    | reflexivity |].
  split; [exact Hrun|]. split; [exact Hcreated|].
  apply (construction_succeeds w' "not-a-url" "anon-key");
    [reflexivity | reflexivity | reflexivity | discriminate | discriminate
    | reflexivity].
Defined.

(** Nothing configured: the call raises and leaves the cache empty. *)
Lemma construction_failure_not_cached_witness :
  let w := fresh_world ∅ true (backend_replying blank None) pong in
  get_supabase_client w = (Raise (RuntimeError config_error_message), w)
  ∧ lru w = None.
Proof.
  intros w.
  assert (get_supabase_client w
          = (Raise (RuntimeError config_error_message), w)) as Hrun
    by reflexivity.
  split; [exact Hrun|].
  destruct (construction_failure_not_cached w _ _ Hrun) as (_ & Hlru & _).
  exact Hlru.
Defined.

(** The backend reports the error as a string: 500, not 400. *)
Lemma create_user_error_not_a_dict_witness :
  let w := fresh_world configured true
             (backend_replying refused_in_words None) pong in
  truthy (PStr "User already exists") = true
  ∧ is_dict (PStr "User already exists") = false
  ∧ respond true is_dict 201 (create_user alice client0) w
    = (internal_server_error,
       after [EvSignUp (credentials alice)] (backend w) w).
Proof.
  intros w. split; [reflexivity|]. split; [reflexivity|].
  destruct (create_user_error_not_a_dict true alice client0 w
              (PDict refused_in_words) (backend w)) as [_ Hanswer];
    [reflexivity | | exact Hanswer].
  right. exists refused_in_words, (PStr "User already exists").
  repeat split; reflexivity.
Defined.


(** Nothing configured: a lookup and a valid sign-up both get the 500; the
    same with a URL that is none. *)
Lemma users_routes_need_handle_witness :
  let w := fresh_world ∅ true (backend_replying signed_up None) pong in
  let w' := fresh_world misconfigured true (backend_replying signed_up None)
              pong in
  lru w = None
  ∧ unconfigured w = true
  ∧ serve true str_stub [GetUser "a"; PostUsers alice_payload] w
    = ([internal_server_error; internal_server_error], w)
  ∧ serve true str_stub [GetUser "a"; PostUsers alice_payload] w'
    = ([internal_server_error; internal_server_error], w').
Proof.
  intros w w'. split; [reflexivity|]. split; [reflexivity|]. split.
  - apply (users_routes_need_handle true str_stub w
             [GetUser "a"; PostUsers alice_payload]).
    + reflexivity.
    + left. reflexivity.
    + repeat constructor.
  - apply (users_routes_need_handle true str_stub w'
             [GetUser "a"; PostUsers alice_payload]).
    + reflexivity.
    + right. right. intros url key Hurl Hkey.
      injection Hurl as <-. injection Hkey as <-. reflexivity.
    + repeat constructor.
Defined.

(** A text request in a configured process: the backend hears nothing. *)
Lemma other_routes_leave_backend_alone_witness :
  let w := fresh_world configured true (backend_replying signed_up None) pong in
  is_users_request (PostProcessText text_payload) = false
  ∧ backend_side (snd (app true str_stub (PostProcessText text_payload) w))
    = backend_side w
  ∧ lru (snd (app true str_stub (PostProcessText text_payload) w)) = None.
Proof.
  intros w. split; [reflexivity|].
  destruct (other_routes_leave_backend_alone true str_stub
              (PostProcessText text_payload) w) as [Hbackend Hfoot];
    [reflexivity|].
  split; [exact Hbackend|].
  exact (f_equal (fun p => snd (fst p)) Hfoot).
Defined.

(** Two pings around a lookup: two GETs, both to the ping URL. *)
Lemma one_get_per_ping_witness :
  let w := fresh_world configured true (backend_replying blank None) pong in
  gets (trace (snd (serve true str_stub
                      [GetServicePing; GetUser "a"; GetServicePing] w)))
  = [ping_url; ping_url].
Proof.
  intros w.
  exact (proj1 (one_get_per_ping true str_stub
                  [GetServicePing; GetUser "a"; GetServicePing] w)).
Defined.

(** Alice signs up first thing: client 0, sign-up, insert, 201. *)
Lemma first_sign_up_witness :
  let w := fresh_world configured true (backend_replying signed_up None) pong in
  let answer := app true str_stub (PostUsers alice_payload) w in
  validate_UserCreate alice_payload = inr alice
  ∧ fst answer = {| status := 201; body := JSON (PDict alice_record) |}
  ∧ trace (snd answer)
    = [EvCreateClient client0; EvSignUp (credentials alice);
       EvExecute (QInsert "users" alice_record)]
  ∧ lru (snd answer) = Some client0.
Proof.
  intros w answer. split; [reflexivity|].
  destruct (first_sign_up true str_stub w alice_payload alice
              "https://example.supabase.co" "anon-key" signed_up (backend w)
              alice_record (PStr "7f3c") (PStr "alice@example.com"))
    as (Hanswer & Htrace & Hlru);
    [reflexivity | reflexivity | reflexivity | discriminate | discriminate
    | reflexivity | reflexivity | reflexivity | reflexivity | reflexivity
    | reflexivity | reflexivity | reflexivity | reflexivity | reflexivity |].
  split; [exact Hanswer|]. split; [exact Htrace | exact Hlru].
Defined.

(** A text at noon on a UTF-8 console: seven lines, stamped one
    microsecond after noon, and an acknowledgement stamped two after.  A
    text that is a lone surrogate: two lines, then the error, and the
    500. *)
Lemma process_text_logs_witness :
  let w := fresh_world ∅ false (backend_replying blank None) pong in
  let stray := {| text := lone_surrogate; timestamp := "2024-05-17T11:59:59";
                  source := "form" |} in
  process_text str_stub hello w
  = (Return (PDict (acknowledgement "hello" (ticking 2))),
     set_tick 2 (set_trace (log_lines hello (ticking 1)) w))
  ∧ isoformat (ticking 1) = "2024-05-17T12:00:00.000001"
  ∧ rule = "=================================================="
  ∧ process_text str_stub stray w
    = (Raise (HTTPException 500
                (PStr "데이터 처리 중 오류가 발생했습니다: error")),
       set_trace [EvPrint rule; EvPrint "📝 FRONTEND에서 전송된 데이터:";
                  EvPrint "❌ 오류 발생: error"] w).
Proof.
  intros w stray.
  destruct (process_text_logs str_stub hello w) as [Hfine _].
  destruct (process_text_logs str_stub stray w) as [_ Hstray].
  split; [apply Hfine; reflexivity|]. split; [reflexivity|].
  split; [reflexivity|].
  apply Hstray; reflexivity.
Defined.

(** A text body without [source]: 422 with an error at [body.source],
    nothing printed.  A body that is an array: 422 with one error, at the
    body. *)
Lemma process_text_rejects_witness :
  let w := fresh_world ∅ false (backend_replying blank None) pong in
  str_field text_without_source "source" = None
  ∧ (∃ errors,
       app true str_stub (PostProcessText text_without_source) w
       = ({| status := 422; body := ValidationErrors errors |}, w)
       ∧ (["body"; "source"], text_without_source) ∈ errors)
  ∧ app true str_stub (PostProcessText listing_body) w
    = ({| status := 422;
          body := ValidationErrors [(["body"], listing_body)] |}, w).
Proof.
  intros w. split; [reflexivity|]. split.
  - destruct (process_text_rejects true str_stub text_without_source w)
      as [Hfield _]; [reflexivity ..|].
    destruct (Hfield {[ "text" := PStr "hello";
                        "timestamp" := PStr "2024-05-17T11:59:59" ]} "source")
      as (errors & Hanswer & Hin);
      [reflexivity | repeat constructor | reflexivity |].
    exists errors. split; [exact Hanswer | exact Hin].
  - destruct (process_text_rejects true str_stub listing_body w)
      as [_ Hbody]; [reflexivity ..|].
    apply Hbody. reflexivity.
Defined.

(** The service is down: [ConnectError], and the caller gets the 500. *)
Lemma proxy_ping_answers_witness :
  let w := fresh_world configured true (backend_replying blank None)
             Unreachable in
  fst (proxy_ping w) = Raise ConnectError
  ∧ fst (app true str_stub GetServicePing w) = internal_server_error.
Proof.
  intros w.
  destruct (proxy_ping_answers true str_stub w) as (_ & Hdown & _).
  split; [apply Hdown; reflexivity | reflexivity].
Defined.

